(** * Homework status bot: a shallow embedding of [homework.py] and
    [exceptions.py], and the properties of its polling loop.

    The program polls a review endpoint, validates the decoded JSON answer,
    formats the first homework of the answer and sends the text to a chat.
    Everything the program does to the outside world (the HTTP request, the
    clock, the bot call, the log, the sleep) is either an input of the model
    (an outcome chosen by the environment) or an event of its trace. *)

From Stdlib Require Import String Ascii List ZArith Bool Arith Lia DecimalString.
Import ListNotations.

Local Open Scope list_scope.
Local Open Scope string_scope.

Set Warnings "-register-all".

(** ** Python values decoded from JSON *)

(** What [Response.json()] can return.  A Python [dict] decoded from JSON has
    string keys, each at most once; it is kept as the list of its items and
    read with [dict_lookup], which returns the item of a key.  JSON [null]
    decodes to [None], so [JNull] is also the value [None] that [dict.get]
    returns for a missing key.  A float is kept as its literal: nothing here
    computes with it. *)
Inductive json : Type :=
| JNull
| JBool (b : bool)
| JInt (z : Z)
| JFloat (literal : string)
| JStr (s : string)
| JList (items : list json)
| JDict (items : list (string * json)).

Fixpoint dict_lookup (d : list (string * json)) (key : string) : option json :=
  match d with
  | [] => None
  | (k, v) :: rest => if String.eqb k key then Some v else dict_lookup rest key
  end.

(** [d.get(key)] *)
Definition dict_get (d : list (string * json)) (key : string) : json :=
  match dict_lookup d key with
  | Some v => v
  | None => JNull
  end.

(** [d.get(key, default)] *)
Definition dict_get_default (d : list (string * json)) (key : string) (default : json) : json :=
  match dict_lookup d key with
  | Some v => v
  | None => default
  end.

(** [x is None] *)
Definition is_None (v : json) : bool :=
  match v with
  | JNull => true
  | _ => false
  end.

(** [type(x).__name__] *)
Definition py_type_name (v : json) : string :=
  match v with
  | JNull => "NoneType"
  | JBool _ => "bool"
  | JInt _ => "int"
  | JFloat _ => "float"
  | JStr _ => "str"
  | JList _ => "list"
  | JDict _ => "dict"
  end.

(** [str(type(x))], as an f-string prints [{type(x)}] *)
Definition py_type_str (v : json) : string :=
  "<class '" ++ py_type_name v ++ "'>".

(** [str(n)] for an [int] *)
Definition py_str_int (z : Z) : string :=
  NilZero.string_of_int (Z.to_int z).

Definition dquote : string := String "034"%char EmptyString.

(** ** Exception classes *)

(** The classes of [exceptions.py], the built-in classes this code raises, and
    the classes of the libraries whose exceptions it catches.
    [RequestsJSONDecodeError] is [requests.exceptions.JSONDecodeError], which
    newer versions of requests raise from [Response.json()]: it inherits from
    both [RequestException] and [json.JSONDecodeError].  [OtherException]
    stands for any other subclass of [Exception]. *)
Inductive pyclass : Type :=
| Exception
| NoMessageToTelegram
| TelegramMessageError
| JSONError
| RequestAPIError
| CurrentDateError
| TypeError
| KeyError
| AttributeError
| RequestException
| HTTPError
| JSONDecodeError
| RequestsJSONDecodeError
| TelegramError
| OtherException.

Definition pyclass_eqb (a b : pyclass) : bool :=
  match a, b with
  | Exception, Exception
  | NoMessageToTelegram, NoMessageToTelegram
  | TelegramMessageError, TelegramMessageError
  | JSONError, JSONError
  | RequestAPIError, RequestAPIError
  | CurrentDateError, CurrentDateError
  | TypeError, TypeError
  | KeyError, KeyError
  | AttributeError, AttributeError
  | RequestException, RequestException
  | HTTPError, HTTPError
  | JSONDecodeError, JSONDecodeError
  | RequestsJSONDecodeError, RequestsJSONDecodeError
  | TelegramError, TelegramError
  | OtherException, OtherException => true
  | _, _ => false
  end.

(** The direct base classes, as the [class] statements give them. *)
Definition bases (c : pyclass) : list pyclass :=
  match c with
  | Exception => []
  | NoMessageToTelegram => [Exception]
  | TelegramMessageError => [NoMessageToTelegram]
  | JSONError => [Exception]
  | RequestAPIError => [Exception]
  | CurrentDateError => [NoMessageToTelegram]
  | TypeError => [Exception]
  | KeyError => [Exception]
  | AttributeError => [Exception]
  | RequestException => [Exception]
  | HTTPError => [RequestException]
  | JSONDecodeError => [Exception]
  | RequestsJSONDecodeError => [RequestException; JSONDecodeError]
  | TelegramError => [Exception]
  | OtherException => [Exception]
  end.

Fixpoint issubclass_upto (depth : nat) (c base : pyclass) : bool :=
  pyclass_eqb c base
  || match depth with
     | O => false
     | S d => existsb (fun b => issubclass_upto d b base) (bases c)
     end.

(** [issubclass(c, base)]: the hierarchy is three levels deep. *)
Definition issubclass (c base : pyclass) : bool := issubclass_upto 3 c base.

(** An exception object.  Python compares exceptions by identity (no class
    here defines [__eq__]), so an object carries the identity it received
    when it was created. *)
Record exn : Type := mk_exn {
  exn_id : nat;
  exn_cls : pyclass;
  exn_arg : string
}.

(** [isinstance(error, base)] *)
Definition isinstance (error : exn) (base : pyclass) : bool :=
  issubclass (exn_cls error) base.

(** [last_error != error], where [last_error] is [None] or an exception. *)
Definition py_ne (last_error : option exn) (error : exn) : bool :=
  match last_error with
  | None => true
  | Some previous => negb (Nat.eqb (exn_id previous) (exn_id error))
  end.

(** ** The environment and the trace *)

Inductive log_level : Type := INFO | ERROR | CRITICAL.

(** What one run leaves behind: the calls of the four functions of the
    pipeline, the log records, and the sleeps. *)
Inductive event : Type :=
| Call_get_api_answer (current_timestamp : json)
| Call_check_response (response : json)
| Call_parse_status (homework : json)
| Call_send_message (message : string)
| Log (level : log_level) (message : string)
| Sleep (seconds : Z).

(** The result of [Response.json()]. *)
Inductive json_outcome : Type :=
| JsonValue (v : json)
| JsonRaises (c : pyclass) (text : string).

(** The result of [requests.get(...)]: an exception of class [c] built with
    the argument [text], or a response object with its status code and body. *)
Inductive http_outcome : Type :=
| GetRaises (c : pyclass) (text : string)
| GetReturns (status_code : Z) (body : json_outcome).

(** The result of [bot.send_message(TELEGRAM_CHAT_ID, message)]. *)
Inductive send_outcome : Type :=
| SendOk
| SendRaises (c : pyclass) (text : string).

(** The bot object, seen from the program: what a call with a given text does. *)
Definition Bot : Type := string -> send_outcome.

(** What the outside world does during one iteration of the loop: the answer
    to the request (it may depend on the [from_date] sent), the clock read by
    [int(time.time())], and the bot.  An iteration calls the bot at most
    twice, with a status text and with an error text, which never coincide. *)
Record iter_env : Type := mk_env {
  requests_get : json -> http_outcome;
  time_time : Z;
  bot : Bot
}.

(** ** The state and the monad *)

(** The variables of [main] that live across iterations, and the counter
    that gives each new exception object its identity. *)
Record machine : Type := mk_machine {
  next_id : nat;
  current_timestamp : json;
  last_error : option exn
}.

Inductive res (A : Type) : Type :=
| Ret (a : A)
| Raise (e : exn).
Arguments Ret {A} a.
Arguments Raise {A} e.

(** A computation: from a state to a result, a state and the events emitted. *)
Definition M (A : Type) : Type := machine -> res A * machine * list event.

Definition result_of {A} (r : res A * machine * list event) : res A := fst (fst r).
Definition state_of {A} (r : res A * machine * list event) : machine := snd (fst r).
Definition trace_of {A} (r : res A * machine * list event) : list event := snd r.

Definition ret {A} (a : A) : M A := fun s => (Ret a, s, []).

Definition bind {A B} (m : M A) (k : A -> M B) : M B :=
  fun s =>
    match m s with
    | (Ret a, s1, t1) =>
        match k a s1 with
        | (r, s2, t2) => (r, s2, (t1 ++ t2)%list)
        end
    | (Raise e, s1, t1) => (Raise e, s1, t1)
    end.

Declare Scope py_scope.
Delimit Scope py_scope with py.
Notation "x <- m ;; k" := (bind m (fun x => k))
  (at level 61, m at next level, right associativity) : py_scope.
Notation "m ;; k" := (bind m (fun _ => k))
  (at level 61, right associativity) : py_scope.
Local Open Scope py_scope.

Definition emit (ev : event) : M unit := fun s => (Ret tt, s, [ev]).

(** [raise cls(arg)]: a new object is created, then raised. *)
Definition raise_new {A} (cls : pyclass) (arg : string) : M A :=
  fun s =>
    (Raise (mk_exn (next_id s) cls arg),
     mk_machine (S (next_id s)) (current_timestamp s) (last_error s),
     []).

Definition get_current_timestamp : M json := fun s => (Ret (current_timestamp s), s, []).
Definition get_last_error : M (option exn) := fun s => (Ret (last_error s), s, []).

Definition set_current_timestamp (v : json) : M unit :=
  fun s => (Ret tt, mk_machine (next_id s) v (last_error s), []).

Definition set_last_error (e : exn) : M unit :=
  fun s => (Ret tt, mk_machine (next_id s) (current_timestamp s) (Some e), []).

(** The first [except] clause whose class the exception is an instance of. *)
Fixpoint select_handler {A} (handlers : list (pyclass * (exn -> M A))) (e : exn)
  : option (exn -> M A) :=
  match handlers with
  | [] => None
  | (c, h) :: rest => if isinstance e c then Some h else select_handler rest e
  end.

(** [try: body / except c as error: h ... / else: orelse].  An exception
    raised by a handler or by [orelse] is not caught by the same statement. *)
Definition try_except_else {A B} (body : M A) (handlers : list (pyclass * (exn -> M B)))
  (orelse : A -> M B) : M B :=
  fun s =>
    match body s with
    | (Ret a, s1, t1) =>
        match orelse a s1 with
        | (r, s2, t2) => (r, s2, (t1 ++ t2)%list)
        end
    | (Raise e, s1, t1) =>
        match select_handler handlers e with
        | Some h =>
            match h e s1 with
            | (r, s2, t2) => (r, s2, (t1 ++ t2)%list)
            end
        | None => (Raise e, s1, t1)
        end
    end.

Definition try_except {A} (body : M A) (handlers : list (pyclass * (exn -> M A))) : M A :=
  try_except_else body handlers ret.

(** [try: m / finally: cleanup]: [cleanup] always runs; a pending exception
    of [m] is raised again after it. *)
Definition finally {A} (m : M A) (cleanup : M unit) : M A :=
  fun s =>
    match m s with
    | (r, s1, t1) =>
        match cleanup s1 with
        | (Ret _, s2, t2) => (r, s2, (t1 ++ t2)%list)
        | (Raise e, s2, t2) => (Raise e, s2, (t1 ++ t2)%list)
        end
    end.

(** ** Constants of [homework.py] *)

Definition RETRY_TIME : Z := 600.
Definition ENDPOINT : string := "https://practicum.yandex.ru/api/user_api/homework_statuses/".
Definition HTTPStatus_OK : Z := 200.

Definition HOMEWORK_VERDICTS : list (string * string) :=
  [ ("approved", "Работа проверена: ревьюеру всё понравилось. Ура!");
    ("reviewing", "Работа взята на проверку ревьюером.");
    ("rejected", "Работа проверена: у ревьюера есть замечания.") ].

Fixpoint verdict_lookup (table : list (string * string)) (key : string) : option string :=
  match table with
  | [] => None
  | (k, v) :: rest => if String.eqb k key then Some v else verdict_lookup rest key
  end.

(** ** The functions of [homework.py] *)

(** Two built-ins of the Python runtime are taken as they are: [repr] of a
    [str] (its quoting and escaping), which [str] of a [KeyError] prints, and
    [str] of a float, a list or a dict. *)
Class PyRuntime : Type := {
  py_repr_str : string -> string;
  py_str_other : json -> string
}.

Section Program.

Context {runtime : PyRuntime}.

(** [str(v)], as an f-string prints [{v}] *)
Definition py_str (v : json) : string :=
  match v with
  | JNull => "None"
  | JBool true => "True"
  | JBool false => "False"
  | JInt z => py_str_int z
  | JStr s => s
  | _ => py_str_other v
  end.

(** [str(error)] for an exception built with one argument: the argument,
    except for a [KeyError], which prints its [repr]. *)
Definition py_str_exn (error : exn) : string :=
  match exn_cls error with
  | KeyError => py_repr_str (exn_arg error)
  | _ => exn_arg error
  end.

(** [bot.send_message(TELEGRAM_CHAT_ID, message)] *)
Definition bot_send_message (bot : Bot) (message : string) : M unit :=
  match bot message with
  | SendOk => ret tt
  | SendRaises c text => raise_new c text
  end.

Definition send_message (bot : Bot) (message : string) : M unit :=
  emit (Call_send_message message) ;;
  try_except_else
    (bot_send_message bot message)
    [ (TelegramError, fun error =>
         raise_new TelegramMessageError
           ("Ошибка при отправке сообщения: " ++ py_str_exn error)) ]
    (fun _ => emit (Log INFO "Сообщение успешно отправлено в телеграм")).

Definition get_api_answer (env : iter_env) (current_timestamp : json) : M json :=
  emit (Call_get_api_answer current_timestamp) ;;
  try_except
    (match requests_get env current_timestamp with
     | GetRaises c text => raise_new c text
     | GetReturns status_code body =>
         if negb (Z.eqb status_code HTTPStatus_OK) then
           let message :=
             "Эндпоинт " ++ ENDPOINT ++ " недоступен."
             ++ "Код ответа: " ++ py_str_int status_code in
           raise_new HTTPError message
         else
           match body with
           | JsonValue v => ret v
           | JsonRaises c text => raise_new c text
           end
     end)
    [ (RequestException, fun error =>
         raise_new RequestAPIError
           ("Ошибка при запросе к основному API: " ++ py_str_exn error));
      (JSONDecodeError, fun error =>
         raise_new JSONError
           ("Ошибка при декодировании JSON: " ++ py_str_exn error)) ].

Definition check_response (response : json) : M (list json) :=
  emit (Call_check_response response) ;;
  match response with
  | JDict d =>
      if is_None (dict_get d "current_date") then
        raise_new CurrentDateError "В ответе API отсутствует ключ current_date"
      else
        let homeworks := dict_get d "homeworks" in
        if is_None homeworks then
          raise_new KeyError "В ответе API отсутствует ключ homework"
        else
          match homeworks with
          | JList items => ret items
          | _ =>
              raise_new TypeError
                ("В ответе API homework является " ++ py_type_str homeworks
                 ++ " вместо list")
          end
  | _ =>
      raise_new TypeError
        ("Ответ API возвращает " ++ py_type_str response ++ " вместо dict")
  end.

(** Looking up the attribute [get] on a value that is not a dict. *)
Definition no_attribute_get (v : json) : string :=
  "'" ++ py_type_name v ++ "' object has no attribute 'get'".

(** [homework_status not in HOMEWORK_VERDICTS]: the key is hashed first,
    and a list or a dict is unhashable. *)
Definition not_in_HOMEWORK_VERDICTS (homework_status : json) : M bool :=
  match homework_status with
  | JStr s =>
      ret (match verdict_lookup HOMEWORK_VERDICTS s with
           | Some _ => false
           | None => true
           end)
  | JList _ | JDict _ =>
      raise_new TypeError ("unhashable type: '" ++ py_type_name homework_status ++ "'")
  | _ => ret true
  end.

Definition parse_status (homework : json) : M string :=
  emit (Call_parse_status homework) ;;
  match homework with
  | JDict d =>
      let homework_name := dict_get d "homework_name" in
      let homework_status := dict_get d "status" in
      if is_None homework_name then
        raise_new KeyError "В ответе API отсутствует ключ homework_name"
      else
        unknown <- not_in_HOMEWORK_VERDICTS homework_status ;;
        if unknown then
          raise_new KeyError ("Статус " ++ py_str homework_status ++ " не найден")
        else
          let verdict :=
            match verdict_lookup HOMEWORK_VERDICTS (py_str homework_status) with
            | Some v => v
            | None => ""
            end in
          ret ("Изменился статус проверки работы " ++ dquote
               ++ py_str homework_name ++ dquote ++ ". " ++ verdict)
  | _ => raise_new AttributeError (no_attribute_get homework)
  end.

(** [response.get('current_date', int(time.time()))]: the attribute is
    looked up before the default is evaluated. *)
Definition response_get_current_date (env : iter_env) (response : json) : M json :=
  match response with
  | JDict d => ret (dict_get_default d "current_date" (JInt (time_time env)))
  | _ => raise_new AttributeError (no_attribute_get response)
  end.

(** The [try] block of the loop of [main]. *)
Definition poll (env : iter_env) : M unit :=
  current <- get_current_timestamp ;;
  response <- get_api_answer env current ;;
  date <- response_get_current_date env response ;;
  set_current_timestamp date ;;
  homeworks <- check_response response ;;
  if Nat.ltb 0 (length homeworks) then
    message <- parse_status (nth 0 homeworks JNull) ;;
    send_message (bot env) message
  else ret tt.

Definition failure_message (error : exn) : string :=
  "Сбой в работе программы: " ++ py_str_exn error.

(** [except NoMessageToTelegram as error] *)
Definition except_NoMessageToTelegram (error : exn) : M unit :=
  emit (Log ERROR (failure_message error)).

(** [except Exception as error] *)
Definition except_Exception (env : iter_env) (error : exn) : M unit :=
  let message := failure_message error in
  emit (Log ERROR message) ;;
  previous <- get_last_error ;;
  if py_ne previous error then
    send_message (bot env) message ;;
    set_last_error error
  else ret tt.

(** One pass through the body of [while True]. *)
Definition iteration (env : iter_env) : M unit :=
  finally
    (try_except (poll env)
       [ (NoMessageToTelegram, except_NoMessageToTelegram);
         (Exception, except_Exception env) ])
    (emit (Sleep RETRY_TIME)).

(** The loop of [main], run against the environments of its successive
    iterations.  An exception that leaves an iteration leaves the loop:
    the remaining iterations do not run. *)
Fixpoint main_loop (envs : list iter_env) : M unit :=
  match envs with
  | [] => ret tt
  | env :: rest => iteration env ;; main_loop rest
  end.

End Program.

(** [main] enters the loop with [current_timestamp = int(time.time())] and
    [last_error = None]. *)
Definition start (now : Z) : machine := mk_machine 0 (JInt now) None.

(** The texts given to [send_message] during a run, in order. *)
Fixpoint sent_messages (t : list event) : list string :=
  match t with
  | [] => []
  | Call_send_message m :: rest => m :: sent_messages rest
  | _ :: rest => sent_messages rest
  end.

Definition is_Call_check_response (ev : event) : bool :=
  match ev with
  | Call_check_response _ => true
  | _ => false
  end.

Definition is_error_log (ev : event) : bool :=
  match ev with
  | Log ERROR _ | Log CRITICAL _ => true
  | _ => false
  end.

(** ** Vocabulary of the properties *)

(** A runtime to evaluate examples with: exact on what they print (strings
    without quotes, backslashes or control characters; no float, no
    container). *)
Definition sample_runtime : PyRuntime :=
  {| py_repr_str := fun s => "'" ++ s ++ "'";
     py_str_other := fun v => match v with JFloat literal => literal | _ => py_type_name v end |}.

(** [part] occurs in [text]. *)
Definition contains (text part : string) : Prop :=
  exists before after, text = before ++ part ++ after.

(** A computation that relates the state it starts in to the state it ends in. *)
Definition steady {A} (R : machine -> machine -> Prop) (m : M A) : Prop :=
  forall s, R s (state_of (m s)).

Definition same_cursor (s s' : machine) : Prop := current_timestamp s' = current_timestamp s.
Definition same_last_error (s s' : machine) : Prop := last_error s' = last_error s.
Definition ids_grow (s s' : machine) : Prop := next_id s <= next_id s'.

(** Identities are only ever handed out, and an exception that leaves the
    computation was created during it. *)
Definition allocates {A} (m : M A) : Prop :=
  forall s,
    ids_grow s (state_of (m s))
    /\ forall e, result_of (m s) = Raise e ->
                next_id s <= exn_id e < next_id (state_of (m s)).

(** A relation between states that the plumbing of the monad respects:
    staying put, chaining, and creating an exception object. *)
Definition frame_rel (R : machine -> machine -> Prop) : Prop :=
  (forall s, R s s)
  /\ (forall a b c, R a b -> R b c -> R a c)
  /\ (forall s, R s (mk_machine (S (next_id s)) (current_timestamp s) (last_error s))).

(** The exception remembered in [last_error] was created earlier. *)
Definition wf (s : machine) : Prop :=
  match last_error s with
  | Some previous => exn_id previous < next_id s
  | None => True
  end.

(** How a call ended, up to the identity of the exception. *)
Inductive ending (A : Type) : Type :=
| Returns (a : A)
| Fails (c : pyclass) (arg : string).
Arguments Returns {A} a.
Arguments Fails {A} c arg.

Definition ending_of {A} (r : res A) : ending A :=
  match r with
  | Ret a => Returns a
  | Raise e => Fails (exn_cls e) (exn_arg e)
  end.

(** A key whose value [dict.get] reports as [None]: absent, or [null]. *)
Definition absent_or_null (d : list (string * json)) (key : string) : Prop :=
  dict_lookup d key = None \/ dict_lookup d key = Some JNull.

Definition is_dict (v : json) : bool :=
  match v with
  | JDict _ => true
  | _ => false
  end.

Definition is_list (v : json) : bool :=
  match v with
  | JList _ => true
  | _ => false
  end.

(** The validator as the specification words it: the decision goes by the
    absence of a key. *)
Inductive check_response_by_absence : json -> ending (list json) -> Prop :=
| cba_not_mapping response arg :
    is_dict response = false ->
    check_response_by_absence response (Fails TypeError arg)
| cba_no_cursor d arg :
    dict_lookup d "current_date" = None ->
    check_response_by_absence (JDict d) (Fails CurrentDateError arg)
| cba_no_homeworks d date arg :
    dict_lookup d "current_date" = Some date ->
    dict_lookup d "homeworks" = None ->
    check_response_by_absence (JDict d) (Fails KeyError arg)
| cba_not_sequence d date homeworks arg :
    dict_lookup d "current_date" = Some date ->
    dict_lookup d "homeworks" = Some homeworks ->
    is_list homeworks = false ->
    check_response_by_absence (JDict d) (Fails TypeError arg)
| cba_homeworks d date items :
    dict_lookup d "current_date" = Some date ->
    dict_lookup d "homeworks" = Some (JList items) ->
    check_response_by_absence (JDict d) (Returns items).

(** The validator as the code decides: a key with the value [null] counts as
    a missing key. *)
Inductive check_response_by_value : json -> ending (list json) -> Prop :=
| cbv_not_mapping response :
    is_dict response = false ->
    check_response_by_value response
      (Fails TypeError ("Ответ API возвращает " ++ py_type_str response ++ " вместо dict"))
| cbv_no_cursor d :
    absent_or_null d "current_date" ->
    check_response_by_value (JDict d)
      (Fails CurrentDateError "В ответе API отсутствует ключ current_date")
| cbv_no_homeworks d :
    ~ absent_or_null d "current_date" ->
    absent_or_null d "homeworks" ->
    check_response_by_value (JDict d)
      (Fails KeyError "В ответе API отсутствует ключ homework")
| cbv_not_sequence d homeworks :
    ~ absent_or_null d "current_date" ->
    dict_lookup d "homeworks" = Some homeworks ->
    homeworks <> JNull ->
    is_list homeworks = false ->
    check_response_by_value (JDict d)
      (Fails TypeError
         ("В ответе API homework является " ++ py_type_str homeworks ++ " вместо list"))
| cbv_homeworks d items :
    ~ absent_or_null d "current_date" ->
    dict_lookup d "homeworks" = Some (JList items) ->
    check_response_by_value (JDict d) (Returns items).

(** A status code outside the fixed set, or no status code at all. *)
Definition unknown_status (status : option string) : Prop :=
  match status with
  | None => True
  | Some code => code <> "approved" /\ code <> "reviewing" /\ code <> "rejected"
  end.

(** A value that cannot be hashed, and so cannot be looked up in a dict. *)
Definition is_unhashable (v : json) : bool :=
  match v with
  | JList _ | JDict _ => true
  | _ => false
  end.

(** The sentence that announces a verdict. *)
Definition status_sentence (homework_name verdict : string) : string :=
  "Изменился статус проверки работы " ++ dquote ++ homework_name ++ dquote
  ++ ". " ++ verdict.

(** The formatter as the specification words it: the decision goes by the
    absence of a field and by the membership of the status in the fixed set,
    whatever the values are. *)
Inductive parse_status_by_absence {runtime : PyRuntime}
  : list (string * json) -> ending string -> Prop :=
| pba_no_name d arg :
    dict_lookup d "homework_name" = None ->
    parse_status_by_absence d (Fails KeyError arg)
| pba_no_status d name arg :
    dict_lookup d "homework_name" = Some name ->
    dict_lookup d "status" = None ->
    parse_status_by_absence d (Fails KeyError arg)
| pba_unknown_status d name status arg :
    dict_lookup d "homework_name" = Some name ->
    dict_lookup d "status" = Some status ->
    status <> JStr "approved" ->
    status <> JStr "reviewing" ->
    status <> JStr "rejected" ->
    parse_status_by_absence d (Fails KeyError arg)
| pba_sentence d name code verdict text :
    dict_lookup d "homework_name" = Some name ->
    dict_lookup d "status" = Some (JStr code) ->
    verdict_lookup HOMEWORK_VERDICTS code = Some verdict ->
    contains text (py_str name) ->
    contains text verdict ->
    parse_status_by_absence d (Returns text).

(** Two calls that both failed, with exceptions of different classes. *)
Definition classified_distinctly {A B} (r1 : res A) (r2 : res B) : Prop :=
  match r1, r2 with
  | Raise e1, Raise e2 => exn_cls e1 <> exn_cls e2
  | _, _ => False
  end.

(** The text of the endpoint-unavailable error. *)
Definition endpoint_unavailable (status_code : Z) : string :=
  "Ошибка при запросе к основному API: Эндпоинт " ++ ENDPOINT
  ++ " недоступен.Код ответа: " ++ py_str_int status_code.

(** What becomes of an exception of class [c] raised inside the [try] of
    [get_api_answer]. *)
Definition reraised {runtime : PyRuntime} (c : pyclass) (text : string) (s : machine)
  : res json * machine * list event :=
  let error := mk_exn (next_id s) c text in
  let s1 := mk_machine (S (next_id s)) (current_timestamp s) (last_error s) in
  let s2 := mk_machine (S (S (next_id s))) (current_timestamp s) (last_error s) in
  if issubclass c RequestException then
    (Raise (mk_exn (S (next_id s)) RequestAPIError
              ("Ошибка при запросе к основному API: " ++ py_str_exn error)), s2, [])
  else if issubclass c JSONDecodeError then
    (Raise (mk_exn (S (next_id s)) JSONError
              ("Ошибка при декодировании JSON: " ++ py_str_exn error)), s2, [])
  else (Raise error, s1, []).

(** The part of the [try] block that follows the assignment of the cursor. *)
Definition validate_and_notify {runtime : PyRuntime} (env : iter_env) (response : json)
  : M unit :=
  homeworks <- check_response response ;;
  if Nat.ltb 0 (length homeworks) then
    message <- parse_status (nth 0 homeworks JNull) ;;
    send_message (bot env) message
  else ret tt.

(** ** Inputs of the scenarios *)

Definition response_hw1_approved : json :=
  JDict [ ("homeworks",
           JList [ JDict [ ("homework_name", JStr "hw1"); ("status", JStr "approved") ] ]);
          ("current_date", JInt 1000) ].

Definition response_no_homeworks : json :=
  JDict [ ("homeworks", JList []); ("current_date", JInt 1000) ].

Definition hw1_approved_text : string :=
  "Изменился статус проверки работы " ++ dquote ++ "hw1" ++ dquote
  ++ ". Работа проверена: ревьюеру всё понравилось. Ура!".

Definition response_without_cursor : json :=
  JDict [ ("homeworks", JList []) ].

Definition response_null_homeworks : json :=
  JDict [ ("current_date", JInt 1000); ("homeworks", JNull) ].

Definition homework_hw1_approved : list (string * json) :=
  [ ("homework_name", JStr "hw1"); ("status", JStr "approved") ].

Definition bot_up : Bot := fun _ => SendOk.
Definition bot_down : Bot := fun _ => SendRaises TelegramError "Timed out".

(** What the chat is told when the endpoint answers 500. *)
Definition report_status_500 : string :=
  "Сбой в работе программы: " ++ endpoint_unavailable 500.

(** The endpoint answers 500; the chat is reachable. *)
Definition env_status_500 : iter_env :=
  mk_env (fun _ => GetReturns 500 (JsonValue JNull)) 1700000000 bot_up.

(** The endpoint answers 500 and the chat is unreachable. *)
Definition env_status_500_bot_down : iter_env :=
  mk_env (fun _ => GetReturns 500 (JsonValue JNull)) 1700000000 bot_down.

(** The request itself fails. *)
Definition env_connection_error : iter_env :=
  mk_env (fun _ => GetRaises RequestException "Connection refused") 1700000000 bot_up.

(** The endpoint answers 200 with the given body. *)
Definition env_answer (response : json) (b : Bot) : iter_env :=
  mk_env (fun _ => GetReturns 200 (JsonValue response)) 1700000000 b.

(** ** Startup *)

(** The three variables read with [os.getenv]: a string, or [None]. *)
Record tokens : Type := mk_tokens {
  PRACTICUM_TOKEN : option string;
  TELEGRAM_TOKEN : option string;
  TELEGRAM_CHAT_ID : option string
}.

(** [bool(v)] for a string or [None]: both [None] and the empty string are
    false. *)
Definition truthy (v : option string) : bool :=
  match v with
  | None => false
  | Some text => negb (String.eqb text "")
  end.

(** [a and b]: [a] when it is false, else [b]. *)
Definition py_and (a b : option string) : option string :=
  if truthy a then b else a.

(** The dict [TOKENS], in the order of its items. *)
Definition TOKENS (t : tokens) : list (string * option string) :=
  [ ("PRACTICUM_TOKEN", PRACTICUM_TOKEN t);
    ("TELEGRAM_TOKEN", TELEGRAM_TOKEN t);
    ("TELEGRAM_CHAT_ID", TELEGRAM_CHAT_ID t) ].

(** [PRACTICUM_TOKEN and TELEGRAM_TOKEN and TELEGRAM_CHAT_ID] *)
Definition check_tokens (t : tokens) : option string :=
  py_and (py_and (PRACTICUM_TOKEN t) (TELEGRAM_TOKEN t)) (TELEGRAM_CHAT_ID t).

(** The [for] loop of [main] over [TOKENS.items()]. *)
Fixpoint log_missing_tokens (items : list (string * option string)) : list event :=
  match items with
  | [] => []
  | (token_name, token_value) :: rest =>
      if negb (truthy token_value) then
        Log CRITICAL ("Отсутствует переменная окружения " ++ token_name)
        :: log_missing_tokens rest
      else log_missing_tokens rest
  end.

(** What [Bot(token=TELEGRAM_TOKEN)] does. *)
Inductive bot_outcome : Type :=
| BotCreated
| BotRaises (c : pyclass) (text : string).

(** How [main] ends: [exit(message)] after the log records of the missing
    variables, an exception of the constructor of the bot, or the loop. *)
Inductive main_outcome : Type :=
| SystemExit (message : string) (trace : list event)
| Uncaught (c : pyclass) (text : string)
| Running (run : res unit * machine * list event).

Definition main {runtime : PyRuntime} (t : tokens) (new_bot : option string -> bot_outcome)
  (now : Z) (envs : list iter_env) : main_outcome :=
  if negb (truthy (check_tokens t)) then
    SystemExit "Отсутствуют необходимые переменные окружения"
      (log_missing_tokens (TOKENS t))
  else
    match new_bot (TELEGRAM_TOKEN t) with
    | BotRaises c text => Uncaught c text
    | BotCreated => Running (main_loop envs (start now))
    end.

(** A variable that is set: a string that is not empty. *)
Definition is_set (v : option string) : Prop :=
  exists text, v = Some text /\ text <> "".

(** ** Vocabulary of the trace *)

Inductive event_kind : Type :=
| K_get_api_answer
| K_check_response
| K_parse_status
| K_send_message
| K_log
| K_sleep.

Definition kind_of (ev : event) : event_kind :=
  match ev with
  | Call_get_api_answer _ => K_get_api_answer
  | Call_check_response _ => K_check_response
  | Call_parse_status _ => K_parse_status
  | Call_send_message _ => K_send_message
  | Log _ _ => K_log
  | Sleep _ => K_sleep
  end.

Definition event_kind_eqb (a b : event_kind) : bool :=
  match a, b with
  | K_get_api_answer, K_get_api_answer
  | K_check_response, K_check_response
  | K_parse_status, K_parse_status
  | K_send_message, K_send_message
  | K_log, K_log
  | K_sleep, K_sleep => true
  | _, _ => false
  end.

Definition is_kind (k : event_kind) (ev : event) : bool :=
  event_kind_eqb (kind_of ev) k.

(** How many events of a kind a trace holds. *)
Definition count_kind (k : event_kind) (t : list event) : nat :=
  length (filter (is_kind k) t).

(** A computation that emits no event of a kind. *)
Definition quiet {A} (k : event_kind) (m : M A) : Prop :=
  forall s, count_kind k (trace_of (m s)) = 0.

(** The homeworks given to [parse_status] during a run, in order. *)
Fixpoint parse_calls (t : list event) : list json :=
  match t with
  | [] => []
  | Call_parse_status homework :: rest => homework :: parse_calls rest
  | _ :: rest => parse_calls rest
  end.

(** The events that follow the [try] block: of the handlers and of [finally]. *)
Definition after_try_event (ev : event) : bool :=
  match ev with
  | Call_send_message _ | Log _ _ | Sleep _ => true
  | _ => false
  end.

(** The [try] block after [get_api_answer] has returned. *)
Definition after_fetch {runtime : PyRuntime} (env : iter_env) (response : json) : M unit :=
  date <- response_get_current_date env response ;;
  set_current_timestamp date ;;
  validate_and_notify env response.

(** A state that the loop of [main] reaches. *)
Definition reachable {runtime : PyRuntime} (s : machine) : Prop :=
  exists now envs, s = state_of (main_loop envs (start now)).

(** A bot that delivers every message. *)
Definition delivers (env : iter_env) : Prop :=
  forall message, bot env message = SendOk.

(** ** The response as an object of the store *)

(** A value as the interpreter holds it: a scalar, or a reference to a list
    or a dict of the store.  Lists and dicts are the objects that can be
    changed in place; whoever holds the reference sees the change. *)
Inductive pyval : Type :=
| PNone
| PBool (b : bool)
| PInt (z : Z)
| PFloat (literal : string)
| PStr (s : string)
| PRef (address : nat).

Inductive pyobj : Type :=
| PList (items : list pyval)
| PDict (items : list (string * pyval)).

(** The store: the object at each address. *)
Definition store : Type := list pyobj.

Definition deref (h : store) (v : pyval) : option pyobj :=
  match v with
  | PRef address => nth_error h address
  | _ => None
  end.

Fixpoint item_lookup (items : list (string * pyval)) (key : string) : option pyval :=
  match items with
  | [] => None
  | (k, v) :: rest => if String.eqb k key then Some v else item_lookup rest key
  end.

(** [type(v).__name__], read in the store for a reference. *)
Definition type_name_at (h : store) (v : pyval) : string :=
  match v with
  | PNone => "NoneType"
  | PBool _ => "bool"
  | PInt _ => "int"
  | PFloat _ => "float"
  | PStr _ => "str"
  | PRef _ =>
      match deref h v with
      | Some (PDict _) => "dict"
      | _ => "list"
      end
  end.

(** A computation over the store and the state of the loop: it may change
    both.  The trace is left out. *)
Definition HM (A : Type) : Type := store -> machine -> res A * store * machine.

Definition hresult {A} (r : res A * store * machine) : res A := fst (fst r).
Definition hstore {A} (r : res A * store * machine) : store := snd (fst r).
Definition hmachine {A} (r : res A * store * machine) : machine := snd r.

Definition hret {A} (a : A) : HM A := fun h s => (Ret a, h, s).

Definition hbind {A B} (m : HM A) (k : A -> HM B) : HM B :=
  fun h s =>
    match m h s with
    | (Ret a, h1, s1) => k a h1 s1
    | (Raise e, h1, s1) => (Raise e, h1, s1)
    end.

Declare Scope store_scope.
Delimit Scope store_scope with store.
Notation "x <- m ;; k" := (hbind m (fun x => k))
  (at level 61, m at next level, right associativity) : store_scope.

(** A computation of the state alone, run beside the store. *)
Definition hlift {A} (m : M A) : HM A :=
  fun h s =>
    match m s with
    | (r, s1, _) => (r, h, s1)
    end.

(** Looking into the store. *)
Definition hread {A} (f : store -> A) : HM A := fun h s => (Ret (f h), h, s).

(** [isinstance(v, dict)] *)
Definition isinstance_dict (v : pyval) : HM bool :=
  hread (fun h => match deref h v with Some (PDict _) => true | _ => false end).

(** [isinstance(v, list)] *)
Definition isinstance_list (v : pyval) : HM bool :=
  hread (fun h => match deref h v with Some (PList _) => true | _ => false end).

(** [v.get(key)], for [v] a dict *)
Definition get_at (v : pyval) (key : string) : HM pyval :=
  hread (fun h =>
           match deref h v with
           | Some (PDict items) =>
               match item_lookup items key with
               | Some x => x
               | None => PNone
               end
           | _ => PNone
           end).

(** [str(type(v))] *)
Definition type_str_at (v : pyval) : HM string :=
  hread (fun h => "<class '" ++ type_name_at h v ++ "'>").

Definition is_PNone (v : pyval) : bool :=
  match v with
  | PNone => true
  | _ => false
  end.

(** [check_response] on a response held by reference: the statements of the
    function, each reading the object of the store. *)
Definition check_response_at (response : pyval) : HM pyval :=
  (is_dict <- isinstance_dict response ;;
   if negb is_dict then
     type_of_response <- type_str_at response ;;
     hlift (raise_new TypeError
              ("Ответ API возвращает " ++ type_of_response ++ " вместо dict"))
   else
     current_date <- get_at response "current_date" ;;
     if is_PNone current_date then
       hlift (raise_new CurrentDateError "В ответе API отсутствует ключ current_date")
     else
       homeworks <- get_at response "homeworks" ;;
       if is_PNone homeworks then
         hlift (raise_new KeyError "В ответе API отсутствует ключ homework")
       else
         is_list <- isinstance_list homeworks ;;
         if negb is_list then
           type_of_homeworks <- type_str_at homeworks ;;
           hlift (raise_new TypeError
                    ("В ответе API homework является " ++ type_of_homeworks
                     ++ " вместо list"))
         else hret homeworks)%store.

(** A computation that leaves every object of the store as it was. *)
Definition keeps_store {A} (m : HM A) : Prop :=
  forall h s, hstore (m h s) = h.

(** The value that a reference stands for: the objects behind it, read out
    of the store down to a depth. *)
Fixpoint reify_list (f : pyval -> option json) (items : list pyval) : option (list json) :=
  match items with
  | [] => Some []
  | v :: rest =>
      match f v, reify_list f rest with
      | Some j, Some js => Some (j :: js)
      | _, _ => None
      end
  end.

Fixpoint reify_items (f : pyval -> option json) (items : list (string * pyval))
  : option (list (string * json)) :=
  match items with
  | [] => Some []
  | (k, v) :: rest =>
      match f v, reify_items f rest with
      | Some j, Some js => Some ((k, j) :: js)
      | _, _ => None
      end
  end.

Fixpoint reify (depth : nat) (h : store) (v : pyval) {struct depth} : option json :=
  match v with
  | PNone => Some JNull
  | PBool b => Some (JBool b)
  | PInt z => Some (JInt z)
  | PFloat literal => Some (JFloat literal)
  | PStr text => Some (JStr text)
  | PRef address =>
      match depth with
      | O => None
      | S depth' =>
          match nth_error h address with
          | Some (PList items) => option_map JList (reify_list (reify depth' h) items)
          | Some (PDict items) => option_map JDict (reify_items (reify depth' h) items)
          | None => None
          end
      end
  end.

(** A store that holds the response of the first scenario at address 2. *)
Definition store_hw1_approved : store :=
  [ PDict [ ("homework_name", PStr "hw1"); ("status", PStr "approved") ];
    PList [ PRef 0 ];
    PDict [ ("homeworks", PRef 1); ("current_date", PInt 1000) ] ].

(** ** Reasoning about computations *)

Section Frame.

Variable R : machine -> machine -> Prop.
Hypothesis R_frame : frame_rel R.

Lemma steady_ret {A} (a : A) : steady R (ret a).
Proof. intro s. apply R_frame. Qed.

Lemma steady_emit ev : steady R (emit ev).
Proof. intro s. apply R_frame. Qed.

Lemma steady_raise_new {A} cls arg : steady R (@raise_new A cls arg).
Proof. intro s. apply R_frame. Qed.

Lemma steady_get_current_timestamp : steady R get_current_timestamp.
Proof. intro s. apply R_frame. Qed.

Lemma steady_get_last_error : steady R get_last_error.
Proof. intro s. apply R_frame. Qed.

Lemma steady_bind {A B} (m : M A) (k : A -> M B) :
  steady R m -> (forall a, steady R (k a)) -> steady R (bind m k).
Proof.
  intros Hm Hk s. specialize (Hm s). unfold bind, state_of in *.
  destruct (m s) as [[[a | e] s1] t1]; simpl in *; [| exact Hm].
  specialize (Hk a s1). destruct (k a s1) as [[r2 s2] t2]; simpl in *.
  destruct R_frame as (_ & Htrans & _). eapply Htrans; eassumption.
Qed.

Lemma select_handler_In {A} (handlers : list (pyclass * (exn -> M A))) e h :
  select_handler handlers e = Some h -> exists c, In (c, h) handlers.
Proof.
  induction handlers as [| [c h0] rest IH]; simpl; [discriminate |].
  destruct (isinstance e c).
  - intros [= <-]. exists c. now left.
  - intros Hsel. destruct (IH Hsel) as [c' Hin]. exists c'. now right.
Qed.

Lemma steady_try_except_else {A B} (body : M A)
      (handlers : list (pyclass * (exn -> M B))) (orelse : A -> M B) :
  steady R body ->
  (forall c h, In (c, h) handlers -> forall e, steady R (h e)) ->
  (forall a, steady R (orelse a)) ->
  steady R (try_except_else body handlers orelse).
Proof.
  intros Hbody Hh Helse s. specialize (Hbody s).
  destruct R_frame as (_ & Htrans & _).
  unfold try_except_else, state_of in *.
  destruct (body s) as [[[a | e] s1] t1]; simpl in *.
  - specialize (Helse a s1). destruct (orelse a s1) as [[r2 s2] t2]; simpl in *.
    eapply Htrans; eassumption.
  - destruct (select_handler handlers e) as [h |] eqn:Hsel; [| exact Hbody].
    destruct (select_handler_In _ _ _ Hsel) as [c Hin].
    specialize (Hh c h Hin e s1). destruct (h e s1) as [[r2 s2] t2]; simpl in *.
    eapply Htrans; eassumption.
Qed.

Lemma steady_try_except {A} (body : M A) (handlers : list (pyclass * (exn -> M A))) :
  steady R body ->
  (forall c h, In (c, h) handlers -> forall e, steady R (h e)) ->
  steady R (try_except body handlers).
Proof.
  intros Hbody Hh. apply steady_try_except_else; auto. intro a. apply steady_ret.
Qed.

Lemma steady_finally {A} (m : M A) (cleanup : M unit) :
  steady R m -> steady R cleanup -> steady R (finally m cleanup).
Proof.
  intros Hm Hc s. specialize (Hm s).
  destruct R_frame as (_ & Htrans & _).
  unfold finally, state_of in *.
  destruct (m s) as [[r s1] t1]; simpl in *.
  specialize (Hc s1). destruct (cleanup s1) as [[[u | e] s2] t2]; simpl in *;
    eapply Htrans; eassumption.
Qed.

End Frame.

(** Splits a goal about a computation along the code of the computation. *)
Ltac handlers_cases :=
  let c := fresh "c" in
  let h := fresh "h" in
  let Hin := fresh "Hin" in
  intros c h Hin; simpl in Hin;
  repeat (destruct Hin as [Hin | Hin]; [injection Hin as <- <- |]);
  try contradiction; intro.

Ltac steady_step :=
  match goal with
  | |- steady _ (bind _ _) => apply steady_bind; [assumption | | intro]
  | |- steady _ (ret _) => apply steady_ret; assumption
  | |- steady _ (emit _) => apply steady_emit; assumption
  | |- steady _ (raise_new _ _) => apply steady_raise_new; assumption
  | |- steady _ get_current_timestamp => apply steady_get_current_timestamp; assumption
  | |- steady _ get_last_error => apply steady_get_last_error; assumption
  | |- steady _ (try_except_else _ _ _) =>
      apply steady_try_except_else; [assumption | | handlers_cases | intro]
  | |- steady _ (try_except _ _) =>
      apply steady_try_except; [assumption | | handlers_cases]
  | |- steady _ (finally _ _) => apply steady_finally; [assumption | |]
  | |- steady _ (match ?x with _ => _ end) => destruct x
  end.

Section Pipeline.

Context {runtime : PyRuntime}.
Variable R : machine -> machine -> Prop.
Hypothesis R_frame : frame_rel R.

Lemma steady_send_message b message : steady R (send_message b message).
Proof. unfold send_message, bot_send_message. repeat steady_step. Qed.

Lemma steady_get_api_answer env ts : steady R (get_api_answer env ts).
Proof. unfold get_api_answer. repeat steady_step. Qed.

Lemma steady_check_response response : steady R (check_response response).
Proof. unfold check_response. repeat steady_step. Qed.

Lemma steady_parse_status homework : steady R (parse_status homework).
Proof. unfold parse_status, not_in_HOMEWORK_VERDICTS. repeat steady_step. Qed.

Lemma steady_response_get_current_date env response :
  steady R (response_get_current_date env response).
Proof. unfold response_get_current_date. repeat steady_step. Qed.

Lemma steady_except_NoMessageToTelegram error :
  steady R (except_NoMessageToTelegram error).
Proof. unfold except_NoMessageToTelegram. repeat steady_step. Qed.

End Pipeline.

Section Allocation.

Lemma allocates_ret {A} (a : A) : allocates (ret a).
Proof. intro s. split; [apply Nat.le_refl | discriminate]. Qed.

Lemma allocates_emit ev : allocates (emit ev).
Proof. intro s. split; [apply Nat.le_refl | discriminate]. Qed.

Lemma allocates_get_current_timestamp : allocates get_current_timestamp.
Proof. intro s. split; [apply Nat.le_refl | discriminate]. Qed.

Lemma allocates_get_last_error : allocates get_last_error.
Proof. intro s. split; [apply Nat.le_refl | discriminate]. Qed.

Lemma allocates_set_current_timestamp v : allocates (set_current_timestamp v).
Proof. intro s. split; [apply Nat.le_refl | discriminate]. Qed.

Lemma allocates_set_last_error e : allocates (set_last_error e).
Proof. intro s. split; [apply Nat.le_refl | discriminate]. Qed.

Lemma allocates_raise_new {A} cls arg : allocates (@raise_new A cls arg).
Proof.
  intro s. unfold ids_grow, raise_new, state_of, result_of; simpl.
  split; [lia |]. intros e [= <-]. simpl. lia.
Qed.

Lemma allocates_bind {A B} (m : M A) (k : A -> M B) :
  allocates m -> (forall a, allocates (k a)) -> allocates (bind m k).
Proof.
  intros Hm Hk s. destruct (Hm s) as [Hgrow Hnew].
  unfold bind, ids_grow, state_of, result_of in *.
  destruct (m s) as [[[a | e] s1] t1]; simpl in *; [| split; [assumption | intros e0 [= <-]; now apply Hnew]].
  destruct (Hk a s1) as [Hgrow2 Hnew2].
  unfold ids_grow, state_of, result_of in *.
  destruct (k a s1) as [[r2 s2] t2]; simpl in *.
  split; [lia |]. intros e He. specialize (Hnew2 e He). lia.
Qed.

Lemma allocates_try_except_else {A B} (body : M A)
      (handlers : list (pyclass * (exn -> M B))) (orelse : A -> M B) :
  allocates body ->
  (forall c h, In (c, h) handlers -> forall e, allocates (h e)) ->
  (forall a, allocates (orelse a)) ->
  allocates (try_except_else body handlers orelse).
Proof.
  intros Hbody Hh Helse s. destruct (Hbody s) as [Hgrow Hnew].
  unfold try_except_else, ids_grow, state_of, result_of in *.
  destruct (body s) as [[[a | e] s1] t1]; simpl in *.
  - destruct (Helse a s1) as [Hgrow2 Hnew2].
    unfold ids_grow, state_of, result_of in *.
    destruct (orelse a s1) as [[r2 s2] t2]; simpl in *.
    split; [lia |]. intros e He. specialize (Hnew2 e He). lia.
  - destruct (select_handler handlers e) as [h |] eqn:Hsel; [| split; [assumption | intros e0 [= <-]; now apply Hnew]].
    destruct (select_handler_In _ _ _ Hsel) as [c Hin].
    destruct (Hh c h Hin e s1) as [Hgrow2 Hnew2].
    unfold ids_grow, state_of, result_of in *.
    destruct (h e s1) as [[r2 s2] t2]; simpl in *.
    split; [lia |]. intros e0 He. specialize (Hnew2 e0 He). lia.
Qed.

Lemma allocates_try_except {A} (body : M A) (handlers : list (pyclass * (exn -> M A))) :
  allocates body ->
  (forall c h, In (c, h) handlers -> forall e, allocates (h e)) ->
  allocates (try_except body handlers).
Proof.
  intros Hbody Hh. apply allocates_try_except_else; auto. intro a. apply allocates_ret.
Qed.

Lemma allocates_finally {A} (m : M A) (cleanup : M unit) :
  allocates m -> allocates cleanup -> allocates (finally m cleanup).
Proof.
  intros Hm Hc s. destruct (Hm s) as [Hgrow Hnew].
  unfold finally, ids_grow, state_of, result_of in *.
  destruct (m s) as [[r s1] t1]; simpl in *.
  destruct (Hc s1) as [Hgrow2 Hnew2].
  unfold ids_grow, state_of, result_of in *.
  destruct (cleanup s1) as [[[u | e] s2] t2]; simpl in *.
  - split; [lia |]. intros e He. specialize (Hnew e He). lia.
  - split; [lia |]. intros e0 [= <-]. specialize (Hnew2 e eq_refl). lia.
Qed.

End Allocation.

Ltac allocates_step :=
  match goal with
  | |- allocates (bind _ _) => apply allocates_bind; [| intro]
  | |- allocates (ret _) => apply allocates_ret
  | |- allocates (emit _) => apply allocates_emit
  | |- allocates (raise_new _ _) => apply allocates_raise_new
  | |- allocates get_current_timestamp => apply allocates_get_current_timestamp
  | |- allocates get_last_error => apply allocates_get_last_error
  | |- allocates (set_current_timestamp _) => apply allocates_set_current_timestamp
  | |- allocates (set_last_error _) => apply allocates_set_last_error
  | |- allocates (try_except_else _ _ _) =>
      apply allocates_try_except_else; [| handlers_cases | intro]
  | |- allocates (try_except _ _) => apply allocates_try_except; [| handlers_cases]
  | |- allocates (finally _ _) => apply allocates_finally
  | |- allocates (match ?x with _ => _ end) => destruct x
  end.

(** The relations that the pipeline is framed by. *)
Lemma same_cursor_frame : frame_rel same_cursor.
Proof.
  unfold frame_rel, same_cursor. repeat split; auto.
  intros a b c Hab Hbc. now rewrite Hbc.
Qed.

Lemma same_last_error_frame : frame_rel same_last_error.
Proof.
  unfold frame_rel, same_last_error. repeat split; auto.
  intros a b c Hab Hbc. now rewrite Hbc.
Qed.

Lemma issubclass_Exception c : issubclass c Exception = true.
Proof. destruct c; reflexivity. Qed.

Section Loop.

Context {runtime : PyRuntime}.

Lemma allocates_send_message b message : allocates (send_message b message).
Proof. unfold send_message, bot_send_message. repeat allocates_step. Qed.

Lemma allocates_get_api_answer env ts : allocates (get_api_answer env ts).
Proof. unfold get_api_answer. repeat allocates_step. Qed.

Lemma allocates_check_response response : allocates (check_response response).
Proof. unfold check_response. repeat allocates_step. Qed.

Lemma allocates_parse_status homework : allocates (parse_status homework).
Proof. unfold parse_status, not_in_HOMEWORK_VERDICTS. repeat allocates_step. Qed.

Lemma allocates_poll env : allocates (poll env).
Proof.
  unfold poll, response_get_current_date. repeat allocates_step;
    first [ apply allocates_get_api_answer | apply allocates_check_response
          | apply allocates_parse_status | apply allocates_send_message ].
Qed.

Lemma steady_set_current_timestamp v : steady same_last_error (set_current_timestamp v).
Proof. intro s. reflexivity. Qed.

Lemma steady_set_last_error e : steady same_cursor (set_last_error e).
Proof. intro s. reflexivity. Qed.

(** The [try] block never touches [last_error]. *)
Lemma poll_keeps_last_error env : steady same_last_error (poll env).
Proof.
  pose proof same_last_error_frame as HR.
  unfold poll. repeat steady_step;
    first [ apply steady_get_api_answer | apply steady_response_get_current_date
          | apply steady_check_response | apply steady_parse_status
          | apply steady_send_message | apply steady_set_current_timestamp ];
    assumption.
Qed.

(** The handlers never touch the cursor. *)
Lemma except_Exception_keeps_cursor env error :
  steady same_cursor (except_Exception env error).
Proof.
  pose proof same_cursor_frame as HR.
  unfold except_Exception. repeat steady_step;
    first [ apply steady_send_message | apply steady_set_last_error ]; assumption.
Qed.

End Loop.

(** ** The validator *)

Lemma check_response_run response s :
  exists r, check_response response s = (r, state_of (check_response response s),
                                          [Call_check_response response])
            /\ (forall items, r = Ret items -> state_of (check_response response s) = s).
Proof.
  unfold check_response, bind, emit, raise_new, ret, state_of.
  destruct response as [| b | z | l | str | items | d]; simpl;
    try (eexists; split; [reflexivity | discriminate]).
  destruct (is_None (dict_get d "current_date"));
    [eexists; split; [reflexivity | discriminate] |].
  destruct (dict_get d "homeworks") as [| b | z | l | str | items | d'] eqn:Hh; simpl;
    try (eexists; split; [reflexivity | discriminate]).
  eexists; split; [reflexivity | reflexivity].
Qed.

Lemma is_None_dict_get d key :
  is_None (dict_get d key) = true <-> absent_or_null d key.
Proof.
  unfold dict_get, absent_or_null.
  destruct (dict_lookup d key) as [v |]; simpl.
  - destruct v; simpl; split; intros H; try discriminate; auto;
      destruct H as [H | H]; discriminate.
  - split; auto.
Qed.

(** C4, as amended.  [check_response] fails with a [TypeError] when the
    response is not a dict; otherwise with [CurrentDateError] when
    [current_date] is absent or null; otherwise with [KeyError] when
    [homeworks] is absent or null; otherwise with a [TypeError] when
    [homeworks] is not a list; otherwise it returns the list stored under
    [homeworks], and leaves the state as it was. *)
Theorem check_response_decides_by_value response s :
  check_response_by_value response (ending_of (result_of (check_response response s)))
  /\ (forall items, result_of (check_response response s) = Ret items ->
                    state_of (check_response response s) = s).
Proof.
  split.
  - unfold check_response, bind, emit, raise_new, ret, result_of.
    destruct response as [| b | z | l | str | items | d]; simpl;
      try (apply cbv_not_mapping; reflexivity).
    destruct (is_None (dict_get d "current_date")) eqn:Hdate; simpl.
    + apply cbv_no_cursor. now apply is_None_dict_get.
    + assert (Hpresent : ~ absent_or_null d "current_date").
      { intro Habs. apply is_None_dict_get in Habs. congruence. }
      destruct (is_None (dict_get d "homeworks")) eqn:Hhw; simpl.
      * apply cbv_no_homeworks; [assumption | now apply is_None_dict_get].
      * unfold dict_get in *.
        destruct (dict_lookup d "homeworks") as [homeworks |] eqn:Hlook;
          [| discriminate].
        destruct homeworks as [| b | z | l | str | items | d']; simpl in *;
          try discriminate;
          try (match type of Hlook with
               | _ = Some ?h =>
                   apply (cbv_not_sequence d h);
                   [assumption | assumption | discriminate | reflexivity]
               end).
        now apply cbv_homeworks.
  - intros items Hret. destruct (check_response_run response s) as (r & Hrun & Hsame).
    apply (Hsame items). rewrite Hrun in Hret. exact Hret.
Qed.

(** C4, as stated, fails: with [homeworks] present and null the code reports
    a missing key, where the claim asks for the wrong-type error. *)
Lemma check_response_null_homeworks_is_missing_key :
  ending_of (result_of (check_response response_null_homeworks (start 0)))
  = Fails KeyError "В ответе API отсутствует ключ homework"
  /\ ~ check_response_by_absence response_null_homeworks
        (ending_of (result_of (check_response response_null_homeworks (start 0)))).
Proof.
  split; [reflexivity |].
  intro H. inversion H; subst; simpl in *; discriminate.
Qed.

(** ** The validator and the store *)

Lemma keeps_store_hret {A} (a : A) : keeps_store (hret a).
Proof. intros h s. reflexivity. Qed.

Lemma keeps_store_hread {A} (f : store -> A) : keeps_store (hread f).
Proof. intros h s. reflexivity. Qed.

Lemma keeps_store_hlift {A} (m : M A) : keeps_store (hlift m).
Proof. intros h s. unfold hlift, hstore. now destruct (m s) as [[r s1] t]. Qed.

Lemma keeps_store_hbind {A B} (m : HM A) (k : A -> HM B) :
  keeps_store m -> (forall a, keeps_store (k a)) -> keeps_store (hbind m k).
Proof.
  intros Hm Hk h s. specialize (Hm h s). unfold hbind, hstore in *.
  destruct (m h s) as [[[a | e] h1] s1]; simpl in *; subst h1; [| reflexivity].
  apply Hk.
Qed.

(** [check_response] only reads: whatever the response is, and however the
    call ends, every object of the store is as it was. *)
Lemma check_response_at_keeps_store response : keeps_store (check_response_at response).
Proof.
  unfold check_response_at, isinstance_dict, isinstance_list, get_at, type_str_at.
  repeat first
    [ apply keeps_store_hbind; [| intro]
    | apply keeps_store_hread
    | apply keeps_store_hlift
    | apply keeps_store_hret
    | match goal with
      | |- keeps_store (if ?b then _ else _) => destruct b
      end ].
Qed.

(** What an accepted response looks like in the store, and what the call
    then does. *)
Lemma check_response_at_Ret response h s homeworks :
  hresult (check_response_at response h s) = Ret homeworks ->
  (forall s', check_response_at response h s' = (Ret homeworks, h, s'))
  /\ exists d items,
       deref h response = Some (PDict d)
       /\ item_lookup d "homeworks" = Some homeworks
       /\ deref h homeworks = Some (PList items).
Proof.
  unfold check_response_at, hbind, isinstance_dict, isinstance_list, get_at,
    type_str_at, hread, hlift, hret, raise_new, hresult.
  destruct (deref h response) as [[items | d] |] eqn:Hresponse; simpl;
    rewrite ?Hresponse; simpl; try discriminate.
  destruct (item_lookup d "current_date") as [current_date |]; simpl;
    rewrite ?Hresponse; simpl; [| discriminate].
  destruct (is_PNone current_date); simpl; rewrite ?Hresponse; simpl;
    [discriminate |].
  destruct (item_lookup d "homeworks") as [stored |] eqn:Hstored; simpl;
    [| discriminate].
  destruct (is_PNone stored); simpl; [discriminate |].
  destruct (deref h stored) as [[items | d'] |] eqn:Hlist; simpl;
    rewrite ?Hlist; simpl; try discriminate.
  intros [= <-]. split; [reflexivity | eauto].
Qed.

Lemma reify_items_lookup f items d key :
  reify_items f items = Some d ->
  match item_lookup items key with
  | Some v => exists j, f v = Some j /\ dict_lookup d key = Some j
  | None => dict_lookup d key = None
  end.
Proof.
  revert d. induction items as [| [k v] rest IH]; simpl; intros d.
  - now intros [= <-].
  - destruct (f v) as [j |] eqn:Hv; [| discriminate].
    destruct (reify_items f rest) as [js |]; [| discriminate].
    intros [= <-]. simpl. destruct (String.eqb k key); [eauto |].
    now apply IH.
Qed.

Lemma reify_shape depth h v j :
  reify depth h v = Some j ->
  is_PNone v = is_None j
  /\ type_name_at h v = py_type_name j
  /\ match deref h v with Some (PList _) => true | _ => false end = is_list j
  /\ match deref h v with Some (PDict _) => true | _ => false end = is_dict j.
Proof.
  destruct depth as [| depth']; destruct v; simpl;
    try (intros [= <-]; repeat split; reflexivity); try discriminate.
  destruct (nth_error h address) as [[items | items] |]; [| | discriminate].
  - destruct (reify_list (reify depth' h) items); simpl; [| discriminate].
    intros [= <-]. repeat split; reflexivity.
  - destruct (reify_items (reify depth' h) items); simpl; [| discriminate].
    intros [= <-]. repeat split; reflexivity.
Qed.

(** The call on a reference does what [check_response] does on the value
    that the reference stands for: the same exception, or the reference of
    the same list. *)
Lemma check_response_at_refines depth h s response j :
  reify (S depth) h response = Some j ->
  match hresult (check_response_at response h s), result_of (check_response j s) with
  | Ret homeworks, Ret items => reify depth h homeworks = Some (JList items)
  | Raise e1, Raise e2 => e1 = e2
  | _, _ => False
  end.
Proof.
  intros Hj.
  unfold check_response_at, hbind, isinstance_dict, isinstance_list, get_at,
    type_str_at, hread, hlift, hret, hresult.
  unfold check_response, bind, emit, ret, raise_new, result_of, py_type_str, dict_get.
  destruct response as [| b | z | l | str | address];
    try (simpl in Hj; injection Hj as <-; reflexivity).
  simpl in Hj. simpl deref.
  destruct (nth_error h address) as [[items | d] |] eqn:Hobj; try discriminate.
  { destruct (reify_list (reify depth h) items); [| discriminate].
    injection Hj as <-. repeat (progress (simpl; rewrite ?Hobj)). reflexivity. }
  destruct (reify_items (reify depth h) d) as [dj |] eqn:Hitems; [| discriminate].
  injection Hj as <-.
  pose proof (reify_items_lookup _ _ _ "current_date" Hitems) as Hdate.
  pose proof (reify_items_lookup _ _ _ "homeworks" Hitems) as Hhw.
  repeat (progress (simpl; rewrite ?Hobj)).
  destruct (item_lookup d "current_date") as [date |].
  - destruct Hdate as (jdate & Hrd & ->).
    destruct (reify_shape _ _ _ _ Hrd) as (-> & _).
    destruct (is_None jdate); repeat (progress (simpl; rewrite ?Hobj));
      [reflexivity |].
    destruct (item_lookup d "homeworks") as [stored |].
    + destruct Hhw as (jhw & Hrh & ->).
      destruct (reify_shape _ _ _ _ Hrh) as (-> & Hn & Hl & _).
      destruct (is_None jhw) eqn:Hnone; simpl; [reflexivity |].
      destruct jhw; simpl in Hl, Hn, Hnone; try discriminate;
        repeat (progress (simpl; rewrite ?Hl, ?Hn)); try reflexivity.
      exact Hrh.
    + rewrite Hhw. reflexivity.
  - rewrite Hdate. reflexivity.
Qed.

(** C9.  On a response that [check_response] accepts, a second call on the
    same object returns the same homeworks as the first: the very list that
    the dict of the response stores under [homeworks].  Neither call changes
    an object of the store, so the response and its homeworks read the same
    before, between and after the two calls. *)
Theorem check_response_twice_keeps_store response h s homeworks :
  hresult (check_response_at response h s) = Ret homeworks ->
  hstore (check_response_at response h s) = h
  /\ hresult (check_response_at response
                (hstore (check_response_at response h s))
                (hmachine (check_response_at response h s)))
     = Ret homeworks
  /\ hstore (check_response_at response
               (hstore (check_response_at response h s))
               (hmachine (check_response_at response h s)))
     = h
  /\ (forall depth,
        reify depth
          (hstore (check_response_at response
                     (hstore (check_response_at response h s))
                     (hmachine (check_response_at response h s))))
          response
        = reify depth h response)
  /\ exists d items,
       deref h response = Some (PDict d)
       /\ item_lookup d "homeworks" = Some homeworks
       /\ deref h homeworks = Some (PList items).
Proof.
  intros Hret.
  destruct (check_response_at_Ret response h s homeworks Hret) as [Hrun Hshape].
  rewrite !check_response_at_keeps_store.
  rewrite (Hrun (hmachine (check_response_at response h s))).
  repeat split; auto.
Qed.

(** ** Strings *)

Lemma string_app_assoc (a b c : string) : (a ++ b) ++ c = a ++ b ++ c.
Proof. induction a as [| ch a IH]; simpl; [reflexivity | now rewrite IH]. Qed.

Lemma string_app_nil_r (a : string) : a ++ "" = a.
Proof. induction a as [| ch a IH]; simpl; [reflexivity | now rewrite IH]. Qed.

Lemma contains_middle (a part b : string) : contains (a ++ part ++ b) part.
Proof. now exists a, b. Qed.

Lemma contains_end (a part : string) : contains (a ++ part) part.
Proof. exists a, "". now rewrite string_app_nil_r. Qed.

Lemma contains_prefixed (a text part : string) : contains text part -> contains (a ++ text) part.
Proof.
  intros (before & after & ->). exists (a ++ before), after.
  now rewrite string_app_assoc.
Qed.

(** The table of verdicts, read entry by entry. *)
Lemma HOMEWORK_VERDICTS_table code :
  (code = "approved"
   /\ verdict_lookup HOMEWORK_VERDICTS code
      = Some "Работа проверена: ревьюеру всё понравилось. Ура!")
  \/ (code = "reviewing"
      /\ verdict_lookup HOMEWORK_VERDICTS code = Some "Работа взята на проверку ревьюером.")
  \/ (code = "rejected"
      /\ verdict_lookup HOMEWORK_VERDICTS code
         = Some "Работа проверена: у ревьюера есть замечания.")
  \/ (unknown_status (Some code) /\ verdict_lookup HOMEWORK_VERDICTS code = None).
Proof.
  unfold HOMEWORK_VERDICTS, verdict_lookup, unknown_status.
  destruct (String.eqb_spec "approved" code) as [<- | Ha]; [now left |].
  destruct (String.eqb_spec "reviewing" code) as [<- | Hb]; [now right; left |].
  destruct (String.eqb_spec "rejected" code) as [<- | Hc]; [now right; right; left |].
  right; right; right. repeat split; congruence.
Qed.

Lemma is_None_false v : is_None v = false <-> v <> JNull.
Proof. destruct v; simpl; split; congruence. Qed.

Section Stages.

Context {runtime : PyRuntime}.

(** *** The formatter *)

Lemma status_sentence_contains n verdict :
  contains (status_sentence n verdict) n
  /\ contains (status_sentence n verdict) verdict.
Proof.
  unfold status_sentence. split.
  - apply (contains_middle ("Изменился статус проверки работы " ++ dquote)).
  - do 4 apply contains_prefixed. apply contains_end.
Qed.

(** C5, as amended.  On every homework record (a dict): when the name is
    absent or null [parse_status] fails with the missing-name [KeyError];
    otherwise, when the status (absent and null both read as [None]) is not
    a list or a dict and is not one of the strings approved, reviewing,
    rejected, it fails with the unknown-status [KeyError], which prints that
    status; otherwise, when the status is one of the three strings, it
    returns the sentence built from the printed name and from the verdict
    of the table for that status, and the sentence contains both. *)
Theorem parse_status_decides_by_value d s :
  (absent_or_null d "homework_name" ->
   ending_of (result_of (parse_status (JDict d) s))
   = Fails KeyError "В ответе API отсутствует ключ homework_name")
  /\ (forall status,
        ~ absent_or_null d "homework_name" ->
        dict_get d "status" = status ->
        is_unhashable status = false ->
        status <> JStr "approved" ->
        status <> JStr "reviewing" ->
        status <> JStr "rejected" ->
        ending_of (result_of (parse_status (JDict d) s))
        = Fails KeyError ("Статус " ++ py_str status ++ " не найден"))
  /\ (forall name code,
        dict_lookup d "homework_name" = Some name ->
        name <> JNull ->
        dict_lookup d "status" = Some (JStr code) ->
        code = "approved" \/ code = "reviewing" \/ code = "rejected" ->
        exists verdict,
          verdict_lookup HOMEWORK_VERDICTS code = Some verdict
          /\ result_of (parse_status (JDict d) s)
             = Ret (status_sentence (py_str name) verdict)
          /\ contains (status_sentence (py_str name) verdict) (py_str name)
          /\ contains (status_sentence (py_str name) verdict) verdict).
Proof.
  split; [| split].
  - intros Hname. apply is_None_dict_get in Hname.
    unfold parse_status, bind, emit, raise_new, result_of. cbv zeta.
    rewrite Hname. reflexivity.
  - intros status Hname Hstatus Hhash Ha Hb Hc.
    assert (Hnone : is_None (dict_get d "homework_name") = false).
    { destruct (is_None (dict_get d "homework_name")) eqn:E; [| reflexivity].
      exfalso. apply Hname. now apply is_None_dict_get. }
    unfold parse_status, not_in_HOMEWORK_VERDICTS, bind, emit, ret, raise_new,
      result_of.
    cbv zeta. rewrite Hnone, Hstatus.
    destruct status as [| b | z | l | code | items | d']; try discriminate;
      try reflexivity.
    destruct (HOMEWORK_VERDICTS_table code)
      as [[-> _] | [[-> _] | [[-> _] | [_ Hv]]]]; try congruence.
    rewrite Hv. reflexivity.
  - intros name code Hname Hnull Hstatus Hcode.
    assert (Hverdict : exists verdict,
               verdict_lookup HOMEWORK_VERDICTS code = Some verdict).
    { destruct Hcode as [-> | [-> | ->]]; eexists; reflexivity. }
    destruct Hverdict as [verdict Hverdict]. exists verdict.
    split; [exact Hverdict |]. split; [| apply status_sentence_contains].
    unfold parse_status, not_in_HOMEWORK_VERDICTS, bind, emit, ret, raise_new,
      result_of, dict_get.
    cbv zeta. rewrite Hname, Hstatus.
    apply is_None_false in Hnull. rewrite Hnull. cbn [py_str].
    rewrite Hverdict. reflexivity.
Qed.

(** Beyond strings: a null name counts as a missing name, and a status
    that is a list or a dict cannot be hashed for the lookup. *)
Lemma parse_status_other_values s :
  ending_of (result_of (parse_status
               (JDict [("homework_name", JNull); ("status", JStr "approved")]) s))
  = Fails KeyError "В ответе API отсутствует ключ homework_name"
  /\ ending_of (result_of (parse_status
                  (JDict [("homework_name", JStr "hw1"); ("status", JList [])]) s))
     = Fails TypeError "unhashable type: 'list'".
Proof. split; reflexivity. Qed.

(** *** The fetcher *)

Lemma get_api_answer_eq env ts s :
  get_api_answer env ts s =
  match
    match requests_get env ts with
    | GetRaises c text => reraised c text s
    | GetReturns status_code body =>
        if Z.eqb status_code HTTPStatus_OK then
          match body with
          | JsonValue v => (Ret v, s, [])
          | JsonRaises c text => reraised c text s
          end
        else
          (Raise (mk_exn (S (next_id s)) RequestAPIError (endpoint_unavailable status_code)),
           mk_machine (S (S (next_id s))) (current_timestamp s) (last_error s), [])
    end
  with
  | (r, s', t) => (r, s', Call_get_api_answer ts :: t)
  end.
Proof.
  unfold get_api_answer, reraised, try_except, try_except_else, bind, emit, ret,
    raise_new.
  destruct (requests_get env ts) as [c text | status_code body]; simpl.
  - unfold isinstance; cbn [exn_cls].
    destruct (issubclass c RequestException); [reflexivity |].
    destruct (issubclass c JSONDecodeError); reflexivity.
  - destruct (Z.eqb status_code HTTPStatus_OK); simpl; [| reflexivity].
    destruct body as [v | c text]; simpl; [reflexivity |].
    unfold isinstance; cbn [exn_cls].
    destruct (issubclass c RequestException); [reflexivity |].
    destruct (issubclass c JSONDecodeError); reflexivity.
Qed.

Lemma get_api_answer_ok env ts s v :
  requests_get env ts = GetReturns HTTPStatus_OK (JsonValue v) ->
  get_api_answer env ts s = (Ret v, s, [Call_get_api_answer ts]).
Proof. intros H. rewrite get_api_answer_eq, H. reflexivity. Qed.

Lemma get_api_answer_Ret env ts s v :
  result_of (get_api_answer env ts s) = Ret v ->
  requests_get env ts = GetReturns HTTPStatus_OK (JsonValue v).
Proof.
  rewrite get_api_answer_eq. unfold reraised, result_of.
  destruct (requests_get env ts) as [c text | status_code body].
  - destruct (issubclass c RequestException); [discriminate |].
    destruct (issubclass c JSONDecodeError); discriminate.
  - destruct (Z.eqb_spec status_code HTTPStatus_OK) as [-> |]; [| discriminate].
    destruct body as [v' | c text]; simpl; [now intros [= ->] |].
    destruct (issubclass c RequestException); [discriminate |].
    destruct (issubclass c JSONDecodeError); discriminate.
Qed.

Lemma endpoint_unavailable_contains status_code :
  contains (endpoint_unavailable status_code) ENDPOINT
  /\ contains (endpoint_unavailable status_code) (py_str_int status_code).
Proof.
  unfold endpoint_unavailable. split.
  - apply (contains_middle "Ошибка при запросе к основному API: Эндпоинт ").
  - do 2 apply contains_prefixed. apply contains_end.
Qed.

(** C8, as amended.  When the status of the answer is not OK,
    [get_api_answer] raises a [RequestAPIError] whose text carries the
    endpoint and the status code.  [RequestAPIError] is also the class of a
    failure of the request itself, and of a body whose decode error is a
    [RequestException] (the decode error of requests itself); the class
    differs only from [JSONError], which a body gets whose decode error is a
    JSON decode error and no [RequestException]. *)
Theorem non_ok_status_raises_RequestAPIError env ts s status_code body :
  requests_get env ts = GetReturns status_code body ->
  status_code <> HTTPStatus_OK ->
  exists e,
    result_of (get_api_answer env ts s) = Raise e
    /\ exn_cls e = RequestAPIError
    /\ exn_arg e = endpoint_unavailable status_code
    /\ contains (exn_arg e) ENDPOINT
    /\ contains (exn_arg e) (py_str_int status_code)
    /\ (forall env' ts' s' c text,
          requests_get env' ts' = GetRaises c text ->
          issubclass c RequestException = true ->
          exists e', result_of (get_api_answer env' ts' s') = Raise e'
                     /\ exn_cls e' = exn_cls e)
    /\ (forall env' ts' s' c text,
          requests_get env' ts' = GetReturns HTTPStatus_OK (JsonRaises c text) ->
          issubclass c RequestException = true ->
          exists e', result_of (get_api_answer env' ts' s') = Raise e'
                     /\ exn_cls e' = exn_cls e)
    /\ (forall env' ts' s' c text,
          requests_get env' ts' = GetReturns HTTPStatus_OK (JsonRaises c text) ->
          issubclass c RequestException = false ->
          issubclass c JSONDecodeError = true ->
          exists e', result_of (get_api_answer env' ts' s') = Raise e'
                     /\ exn_cls e' = JSONError
                     /\ classified_distinctly (A:=json) (B:=json) (Raise e) (Raise e')).
Proof.
  intros Hget Hcode.
  eexists. split.
  - rewrite get_api_answer_eq, Hget.
    destruct (Z.eqb_spec status_code HTTPStatus_OK) as [Heq | _]; [contradiction |].
    reflexivity.
  - cbn [exn_cls exn_arg]. repeat split; try apply endpoint_unavailable_contains.
    + intros env' ts' s' c text Hget' Hsub. eexists. split.
      * rewrite get_api_answer_eq, Hget'. unfold reraised. rewrite Hsub. reflexivity.
      * reflexivity.
    + intros env' ts' s' c text Hget' Hsub. eexists. split.
      * rewrite get_api_answer_eq, Hget'. unfold reraised.
        rewrite Z.eqb_refl, Hsub. reflexivity.
      * reflexivity.
    + intros env' ts' s' c text Hget' Hreq Hjson. eexists. split; [| split].
      * rewrite get_api_answer_eq, Hget'. unfold reraised.
        rewrite Z.eqb_refl, Hreq, Hjson. reflexivity.
      * reflexivity.
      * simpl. discriminate.
Qed.

End Stages.

(** ** The loop *)

Lemma sent_messages_app t1 t2 :
  sent_messages (t1 ++ t2)%list = (sent_messages t1 ++ sent_messages t2)%list.
Proof.
  induction t1 as [| ev t1 IH]; simpl; [reflexivity |].
  destruct ev; simpl; now rewrite IH.
Qed.

Lemma non_notifiable_classes c :
  issubclass c NoMessageToTelegram = true
  <-> c = NoMessageToTelegram \/ c = TelegramMessageError \/ c = CurrentDateError.
Proof.
  split.
  - destruct c; simpl; intros H; try discriminate; auto.
  - intros [-> | [-> | ->]]; reflexivity.
Qed.

Section Orchestration.

Context {runtime : PyRuntime}.

Lemma send_message_eq b message s :
  send_message b message s =
  match b message with
  | SendOk =>
      (Ret tt, s,
       [Call_send_message message; Log INFO "Сообщение успешно отправлено в телеграм"])
  | SendRaises c text =>
      if issubclass c TelegramError then
        (Raise (mk_exn (S (next_id s)) TelegramMessageError
                  ("Ошибка при отправке сообщения: "
                   ++ py_str_exn (mk_exn (next_id s) c text))),
         mk_machine (S (S (next_id s))) (current_timestamp s) (last_error s),
         [Call_send_message message])
      else
        (Raise (mk_exn (next_id s) c text),
         mk_machine (S (next_id s)) (current_timestamp s) (last_error s),
         [Call_send_message message])
  end.
Proof.
  unfold send_message, bot_send_message, try_except_else, bind, emit, ret, raise_new.
  destruct (b message) as [| c text]; simpl; [reflexivity |].
  unfold isinstance; cbn [exn_cls].
  destruct (issubclass c TelegramError); reflexivity.
Qed.

Lemma validate_and_notify_eq env response s :
  validate_and_notify env response s =
  match check_response response s with
  | (Raise e, s1, t1) => (Raise e, s1, t1)
  | (Ret [], s1, t1) => (Ret tt, s1, t1)
  | (Ret (homework :: _), s1, t1) =>
      match parse_status homework s1 with
      | (Raise e, s2, t2) => (Raise e, s2, (t1 ++ t2)%list)
      | (Ret message, s2, t2) =>
          match send_message (bot env) message s2 with
          | (r, s3, t3) => (r, s3, (t1 ++ t2 ++ t3)%list)
          end
      end
  end.
Proof.
  unfold validate_and_notify, bind.
  destruct (check_response response s) as [[[homeworks | e] s1] t1]; [| reflexivity].
  destruct homeworks as [| homework rest]; simpl.
  - now rewrite app_nil_r.
  - destruct (parse_status homework s1) as [[[message | e] s2] t2]; [| reflexivity].
    destruct (send_message (bot env) message s2) as [[r s3] t3]. reflexivity.
Qed.

(** The [try] block, once the request has been answered with a value. *)
Lemma poll_fetched env s v :
  requests_get env (current_timestamp s) = GetReturns HTTPStatus_OK (JsonValue v) ->
  poll env s =
  match v with
  | JDict d =>
      match
        validate_and_notify env v
          (mk_machine (next_id s)
             (dict_get_default d "current_date" (JInt (time_time env)))
             (last_error s))
      with
      | (r, s2, t2) => (r, s2, Call_get_api_answer (current_timestamp s) :: t2)
      end
  | _ =>
      (Raise (mk_exn (next_id s) AttributeError (no_attribute_get v)),
       mk_machine (S (next_id s)) (current_timestamp s) (last_error s),
       [Call_get_api_answer (current_timestamp s)])
  end.
Proof.
  intros Hget. unfold poll, bind at 1 2, get_current_timestamp.
  rewrite (get_api_answer_ok _ _ _ _ Hget).
  unfold response_get_current_date, validate_and_notify.
  destruct v; try reflexivity.
  unfold bind at 1 2, ret, set_current_timestamp.
  match goal with
  | |- context [bind ?m ?k ?st] => destruct (bind m k st) as [[r s2] t2]
  end.
  reflexivity.
Qed.

Lemma poll_fetched_dict env s v d :
  requests_get env (current_timestamp s) = GetReturns HTTPStatus_OK (JsonValue v) ->
  v = JDict d ->
  poll env s =
  match
    validate_and_notify env v
      (mk_machine (next_id s)
         (dict_get_default d "current_date" (JInt (time_time env)))
         (last_error s))
  with
  | (r, s2, t2) => (r, s2, Call_get_api_answer (current_timestamp s) :: t2)
  end.
Proof. intros Hget ->. now rewrite (poll_fetched env s _ Hget). Qed.

(** The [try] block, when [get_api_answer] raises: nothing else runs. *)
Lemma poll_not_fetched env s e :
  result_of (get_api_answer env (current_timestamp s) s) = Raise e ->
  poll env s = (Raise e, state_of (get_api_answer env (current_timestamp s) s),
                trace_of (get_api_answer env (current_timestamp s) s)).
Proof.
  intros Hget. unfold poll, bind at 1 2, get_current_timestamp.
  unfold result_of, state_of, trace_of in *.
  destruct (get_api_answer env (current_timestamp s) s) as [[[v | e'] s1] t1];
    simpl in *; [discriminate | now injection Hget as ->].
Qed.

Lemma except_Exception_eq env e s :
  except_Exception env e s =
  if py_ne (last_error s) e then
    match send_message (bot env) (failure_message e) s with
    | (Ret _, s2, t2) =>
        (Ret tt, mk_machine (next_id s2) (current_timestamp s2) (Some e),
         Log ERROR (failure_message e) :: t2)
    | (Raise e', s2, t2) => (Raise e', s2, Log ERROR (failure_message e) :: t2)
    end
  else (Ret tt, s, [Log ERROR (failure_message e)]).
Proof.
  unfold except_Exception, bind, emit, get_last_error, set_last_error, ret.
  destruct (py_ne (last_error s) e); [| reflexivity].
  destruct (send_message (bot env) (failure_message e) s) as [[[u | e'] s2] t2];
    simpl; rewrite ?app_nil_r; reflexivity.
Qed.

Lemma iteration_eq env s :
  iteration env s =
  match poll env s with
  | (Ret u, s1, t1) => (Ret u, s1, (t1 ++ [Sleep RETRY_TIME])%list)
  | (Raise e, s1, t1) =>
      if isinstance e NoMessageToTelegram then
        (Ret tt, s1, (t1 ++ [Log ERROR (failure_message e); Sleep RETRY_TIME])%list)
      else
        match except_Exception env e s1 with
        | (r, s2, t2) => (r, s2, ((t1 ++ t2) ++ [Sleep RETRY_TIME])%list)
        end
  end.
Proof.
  unfold iteration, finally, try_except, try_except_else, emit, ret.
  destruct (poll env s) as [[[u | e] s1] t1]; simpl.
  - now rewrite app_nil_r.
  - destruct (isinstance e NoMessageToTelegram).
    + unfold except_NoMessageToTelegram, emit. simpl. now rewrite <- app_assoc.
    + unfold isinstance. rewrite issubclass_Exception.
      destruct (except_Exception env e s1) as [[r s2] t2]. reflexivity.
Qed.


(** After the [try] block, nothing assigns the cursor. *)
Lemma iteration_cursor env s :
  current_timestamp (state_of (iteration env s))
  = current_timestamp (state_of (poll env s)).
Proof.
  rewrite iteration_eq.
  destruct (poll env s) as [[[u | e] s1] t1]; [reflexivity |].
  destruct (isinstance e NoMessageToTelegram); [reflexivity |].
  pose proof (except_Exception_keeps_cursor env e s1) as Hkeep.
  unfold same_cursor, state_of in *.
  destruct (except_Exception env e s1) as [[r s2] t2]. exact Hkeep.
Qed.

(** *** The cursor *)


(** The cursor keeps its value when the fetch fails, and when the response
    is not a mapping. *)
Lemma cursor_kept_without_mapping env s :
  (forall e, result_of (get_api_answer env (current_timestamp s) s) = Raise e ->
             current_timestamp (state_of (iteration env s)) = current_timestamp s)
  /\ (forall v, requests_get env (current_timestamp s)
                = GetReturns HTTPStatus_OK (JsonValue v) ->
                is_dict v = false ->
                current_timestamp (state_of (iteration env s)) = current_timestamp s).
Proof.
  split.
  - intros e Hget. rewrite iteration_cursor, (poll_not_fetched env s e Hget).
    apply (steady_get_api_answer same_cursor same_cursor_frame).
  - intros v Hget Hv. rewrite iteration_cursor, (poll_fetched env s v Hget).
    destruct v; try reflexivity. discriminate.
Qed.

(** *** The two scenarios *)

Lemma validate_and_notify_hw1 env s :
  validate_and_notify env response_hw1_approved s =
  match send_message (bot env) hw1_approved_text s with
  | (r, s3, t3) =>
      (r, s3,
       Call_check_response response_hw1_approved
       :: Call_parse_status (JDict homework_hw1_approved) :: t3)
  end.
Proof.
  rewrite validate_and_notify_eq.
  change (check_response response_hw1_approved s)
    with (Ret [JDict homework_hw1_approved], s,
          [Call_check_response response_hw1_approved]).
  cbv iota beta.
  change (parse_status (JDict homework_hw1_approved) s)
    with (Ret hw1_approved_text, s, [Call_parse_status (JDict homework_hw1_approved)]).
  cbv iota beta.
  destruct (send_message (bot env) hw1_approved_text s) as [[r s3] t3].
  reflexivity.
Qed.

Lemma poll_hw1 env s :
  requests_get env (current_timestamp s)
  = GetReturns HTTPStatus_OK (JsonValue response_hw1_approved) ->
  poll env s =
  match
    send_message (bot env) hw1_approved_text
      (mk_machine (next_id s) (JInt 1000) (last_error s))
  with
  | (r, s3, t3) =>
      (r, s3,
       Call_get_api_answer (current_timestamp s)
       :: Call_check_response response_hw1_approved
       :: Call_parse_status (JDict homework_hw1_approved) :: t3)
  end.
Proof.
  intros Hget.
  rewrite (poll_fetched_dict env s response_hw1_approved _ Hget eq_refl).
  rewrite validate_and_notify_hw1.
  change (dict_get_default _ "current_date" (JInt (time_time env))) with (JInt 1000).
  destruct (send_message (bot env) hw1_approved_text _) as [[r s3] t3].
  reflexivity.
Qed.

Lemma poll_no_homeworks env s :
  requests_get env (current_timestamp s)
  = GetReturns HTTPStatus_OK (JsonValue response_no_homeworks) ->
  poll env s =
  (Ret tt, mk_machine (next_id s) (JInt 1000) (last_error s),
   [Call_get_api_answer (current_timestamp s);
    Call_check_response response_no_homeworks]).
Proof.
  intros Hget.
  rewrite (poll_fetched_dict env s response_no_homeworks _ Hget eq_refl).
  rewrite validate_and_notify_eq. reflexivity.
Qed.

(** C3.  Scenario 1: when the fetched response holds the homework hw1 with
    status approved and [current_date] 1000, the [try] block calls
    [send_message] once, with exactly the sentence of the claim, and the
    cursor is 1000 after the iteration; when the bot delivers it, that is
    the only message of the iteration and no error is logged.  Scenario 2:
    when the response holds no homework and [current_date] 1000,
    [send_message] is not called, nothing is raised or logged as an error,
    and the cursor is 1000. *)
Theorem end_to_end_scenarios env1 env2 s :
  requests_get env1 (current_timestamp s)
  = GetReturns HTTPStatus_OK (JsonValue response_hw1_approved) ->
  requests_get env2 (current_timestamp s)
  = GetReturns HTTPStatus_OK (JsonValue response_no_homeworks) ->
  (sent_messages (trace_of (poll env1 s)) = [hw1_approved_text]
   /\ current_timestamp (state_of (iteration env1 s)) = JInt 1000
   /\ (bot env1 hw1_approved_text = SendOk ->
       result_of (iteration env1 s) = Ret tt
       /\ sent_messages (trace_of (iteration env1 s)) = [hw1_approved_text]
       /\ existsb is_error_log (trace_of (iteration env1 s)) = false))
  /\ (result_of (poll env2 s) = Ret tt
      /\ result_of (iteration env2 s) = Ret tt
      /\ sent_messages (trace_of (iteration env2 s)) = []
      /\ existsb is_error_log (trace_of (iteration env2 s)) = false
      /\ current_timestamp (state_of (iteration env2 s)) = JInt 1000).
Proof.
  intros H1 H2. split.
  - split; [| split].
    + rewrite (poll_hw1 env1 s H1), send_message_eq.
      destruct (bot env1 hw1_approved_text) as [| c text]; [reflexivity |].
      destruct (issubclass c TelegramError); reflexivity.
    + rewrite iteration_cursor, (poll_hw1 env1 s H1), send_message_eq.
      destruct (bot env1 hw1_approved_text) as [| c text]; [reflexivity |].
      destruct (issubclass c TelegramError); reflexivity.
    + intros Hbot.
      rewrite iteration_eq, (poll_hw1 env1 s H1), send_message_eq, Hbot.
      repeat split.
  - rewrite iteration_eq, (poll_no_homeworks env2 s H2). repeat split.
Qed.

(** *** Errors that are not reported to the chat *)

(** C6.  When the [try] block raises a [NoMessageToTelegram] (a
    [TelegramMessageError] of the notifier, or the [CurrentDateError]),
    the iteration only logs the error and sleeps: [send_message] is not
    called for it, [last_error] keeps its value, and the loop goes on. *)
Theorem non_notifiable_error_only_logged env s e :
  result_of (poll env s) = Raise e ->
  isinstance e NoMessageToTelegram = true ->
  result_of (iteration env s) = Ret tt
  /\ last_error (state_of (iteration env s)) = last_error s
  /\ trace_of (iteration env s)
     = (trace_of (poll env s)
        ++ [Log ERROR (failure_message e); Sleep RETRY_TIME])%list
  /\ sent_messages (trace_of (iteration env s)) = sent_messages (trace_of (poll env s)).
Proof.
  intros Hraise Hclass.
  pose proof (poll_keeps_last_error env s) as Hkeep.
  rewrite iteration_eq.
  unfold result_of, state_of, trace_of, same_last_error in *.
  destruct (poll env s) as [[[u | e'] s1] t1]; simpl in *; [discriminate |].
  injection Hraise as ->. rewrite Hclass. simpl.
  repeat split; [assumption |].
  rewrite sent_messages_app. simpl. now rewrite app_nil_r.
Qed.

(** *** Errors that are reported to the chat *)

Lemma wf_start now : wf (start now).
Proof. exact I. Qed.

(** An exception raised by the [try] block is never the object that
    [last_error] holds: the comparison [last_error != error] is true. *)
Lemma poll_raises_new_object env s e :
  wf s ->
  result_of (poll env s) = Raise e ->
  py_ne (last_error (state_of (poll env s))) e = true
  /\ exn_id e < next_id (state_of (poll env s)).
Proof.
  intros Hwf Hraise.
  destruct (allocates_poll env s) as [_ Hnew]. specialize (Hnew e Hraise).
  rewrite (poll_keeps_last_error env s).
  unfold wf, py_ne in *. split; [| lia].
  destruct (last_error s) as [previous |]; [| reflexivity].
  apply negb_true_iff, Nat.eqb_neq. lia.
Qed.

(** Whatever error the [try] block raises that is not a
    [NoMessageToTelegram], the handler calls [send_message] with its text:
    the text of the previous error plays no part. *)
Lemma notifiable_error_always_sent env s e :
  wf s ->
  result_of (poll env s) = Raise e ->
  isinstance e NoMessageToTelegram = false ->
  sent_messages (trace_of (iteration env s))
  = (sent_messages (trace_of (poll env s)) ++ [failure_message e])%list.
Proof.
  intros Hwf Hraise Hclass.
  destruct (poll_raises_new_object env s e Hwf Hraise) as [Hne _].
  rewrite iteration_eq.
  unfold result_of, state_of, trace_of in *.
  destruct (poll env s) as [[[u | e'] s1] t1]; simpl in *; [discriminate |].
  injection Hraise as ->. rewrite Hclass, except_Exception_eq, Hne, send_message_eq.
  destruct (bot env (failure_message e)) as [| c text];
    [| destruct (issubclass c TelegramError)];
    simpl; rewrite !sent_messages_app; simpl; now rewrite ?app_nil_r.
Qed.

(** When the bot refuses the report of an error, the exception of
    [send_message] leaves the handler, the iteration and the loop. *)
Lemma failed_report_leaves_the_loop env rest s e c text :
  wf s ->
  result_of (poll env s) = Raise e ->
  isinstance e NoMessageToTelegram = false ->
  bot env (failure_message e) = SendRaises c text ->
  exists e',
    result_of (iteration env s) = Raise e'
    /\ result_of (main_loop (env :: rest) s) = Raise e'
    /\ trace_of (main_loop (env :: rest) s) = trace_of (iteration env s)
    /\ last_error (state_of (iteration env s)) = last_error s.
Proof.
  intros Hwf Hraise Hclass Hbot.
  destruct (poll_raises_new_object env s e Hwf Hraise) as [Hne _].
  pose proof (poll_keeps_last_error env s) as Hkeep.
  cbn [main_loop]. unfold bind. rewrite iteration_eq.
  unfold result_of, state_of, trace_of, same_last_error in *.
  destruct (poll env s) as [[[u | e'] s1] t1]; simpl in *; [discriminate |].
  injection Hraise as ->.
  rewrite Hclass, except_Exception_eq, Hne, send_message_eq, Hbot.
  destruct (issubclass c TelegramError); simpl; eexists; repeat split; assumption.
Qed.

Lemma wf_iteration env s : wf s -> wf (state_of (iteration env s)).
Proof.
  intros Hwf.
  pose proof (poll_keeps_last_error env s) as Hkeep.
  pose proof (poll_raises_new_object env s) as Hnew.
  destruct (allocates_poll env s) as [Hgrow _].
  rewrite iteration_eq.
  unfold result_of, state_of, same_last_error, ids_grow in *.
  destruct (poll env s) as [[[u | e] s1] t1]; simpl in *.
  - unfold wf in *. rewrite Hkeep. destruct (last_error s); [lia | exact I].
  - assert (Hwf1 : wf s1).
    { unfold wf in *. rewrite Hkeep. destruct (last_error s); [lia | exact I]. }
    destruct (isinstance e NoMessageToTelegram); [exact Hwf1 |].
    destruct (Hnew e Hwf eq_refl) as [Hne Hlt].
    rewrite except_Exception_eq, Hne, send_message_eq.
    destruct (bot env (failure_message e)) as [| c text];
      [| destruct (issubclass c TelegramError)]; simpl; unfold wf in *; simpl;
      try assumption.
    + destruct (last_error s1); lia.
    + destruct (last_error s1); lia.
Qed.

(** Every state that the loop reaches from its start is well formed. *)
Lemma wf_main_loop envs s : wf s -> wf (state_of (main_loop envs s)).
Proof.
  revert s. induction envs as [| env rest IH]; intros s Hwf; [exact Hwf |].
  cbn [main_loop]. unfold bind, state_of.
  pose proof (wf_iteration env s Hwf) as Hwf1. unfold state_of in Hwf1.
  destruct (iteration env s) as [[[u | e] s1] t1]; simpl in *; [| exact Hwf1].
  specialize (IH s1 Hwf1). unfold state_of in IH.
  destruct (main_loop rest s1) as [[r s2] t2]. exact IH.
Qed.

(** C10.  When the fetched response is not a mapping, the [try] block
    raises the [AttributeError] of [response.get] right after
    [get_api_answer]: [check_response] is not called in the iteration, the
    cursor keeps its value, and the text sent to the chat is the text of
    that [AttributeError], not of the [TypeError] that [check_response]
    raises on such a value. *)
Theorem non_mapping_response_fails_before_validation env s v :
  wf s ->
  requests_get env (current_timestamp s) = GetReturns HTTPStatus_OK (JsonValue v) ->
  is_dict v = false ->
  let error := mk_exn (next_id s) AttributeError (no_attribute_get v) in
  poll env s
  = (Raise error,
     mk_machine (S (next_id s)) (current_timestamp s) (last_error s),
     [Call_get_api_answer (current_timestamp s)])
  /\ existsb is_Call_check_response (trace_of (iteration env s)) = false
  /\ sent_messages (trace_of (iteration env s))
     = ["Сбой в работе программы: '" ++ py_type_name v
        ++ "' object has no attribute 'get'"]
  /\ current_timestamp (state_of (iteration env s)) = current_timestamp s
  /\ exists arg,
       ending_of (result_of (check_response v s)) = Fails TypeError arg
       /\ ending_of (result_of (poll env s)) <> Fails TypeError arg.
Proof.
  intros Hwf Hget Hv error.
  assert (Hpoll : poll env s
                  = (Raise error,
                     mk_machine (S (next_id s)) (current_timestamp s) (last_error s),
                     [Call_get_api_answer (current_timestamp s)])).
  { rewrite (poll_fetched env s v Hget). destruct v; try reflexivity. discriminate. }
  assert (Hne : py_ne (last_error s) error = true).
  { unfold wf, py_ne in *. destruct (last_error s) as [previous |]; [| reflexivity].
    apply negb_true_iff, Nat.eqb_neq. simpl. lia. }
  assert (Htext : failure_message error
                  = "Сбой в работе программы: '" ++ py_type_name v
                    ++ "' object has no attribute 'get'") by reflexivity.
  split; [exact Hpoll |].
  split; [| split; [| split]].
  - rewrite iteration_eq, Hpoll. cbn [isinstance exn_cls error].
    change (issubclass AttributeError NoMessageToTelegram) with false. cbv iota.
    rewrite except_Exception_eq. cbn [last_error]. rewrite Hne, send_message_eq.
    destruct (bot env (failure_message error)) as [| c text];
      [| destruct (issubclass c TelegramError)]; reflexivity.
  - rewrite <- Htext, iteration_eq, Hpoll. cbn [isinstance exn_cls error].
    change (issubclass AttributeError NoMessageToTelegram) with false. cbv iota.
    rewrite except_Exception_eq. cbn [last_error]. rewrite Hne, send_message_eq.
    destruct (bot env (failure_message error)) as [| c text];
      [| destruct (issubclass c TelegramError)]; reflexivity.
  - rewrite iteration_cursor, Hpoll. reflexivity.
  - rewrite Hpoll.
    destruct v; try discriminate; eexists; (split; [reflexivity | discriminate]).
Qed.

(** *** Where the loop departs from the claims *)

(** C1 fails on the code.  Two consecutive iterations meet the same
    answer 500 and raise two errors with the same text; the two error
    objects differ, [last_error != error] compares objects, and
    [send_message] is called with the same report in both iterations. *)
Theorem repeated_error_is_reported_twice :
  let s0 := start 1700000000 in
  let s1 := state_of (iteration env_status_500 s0) in
  exists e1 e2,
    result_of (poll env_status_500 s0) = Raise e1
    /\ result_of (poll env_status_500 s1) = Raise e2
    /\ py_str_exn e1 = py_str_exn e2
    /\ last_error s1 = Some e1
    /\ py_ne (last_error s1) e2 = true
    /\ sent_messages (trace_of (iteration env_status_500 s0)) = [report_status_500]
    /\ sent_messages (trace_of (iteration env_status_500 s1)) = [report_status_500]
    /\ sent_messages (trace_of (main_loop [env_status_500; env_status_500] s0))
       = [report_status_500; report_status_500].
Proof.
  intros s0 s1.
  exists (mk_exn 1 RequestAPIError (endpoint_unavailable 500)),
         (mk_exn 3 RequestAPIError (endpoint_unavailable 500)).
  subst s0 s1. repeat split; vm_compute; reflexivity.
Qed.

(** C7 fails on the code.  The endpoint answers 500 and the bot refuses
    the report: the [TelegramMessageError] raised by [send_message] inside
    the handler is not caught, so after the [finally] it leaves the loop;
    the second iteration never starts, and the failure is not logged. *)
Theorem failed_report_ends_the_loop :
  let run := main_loop [env_status_500_bot_down; env_status_500] (start 1700000000) in
  result_of run
  = Raise (mk_exn 3 TelegramMessageError "Ошибка при отправке сообщения: Timed out")
  /\ trace_of run
     = [ Call_get_api_answer (JInt 1700000000);
         Log ERROR report_status_500;
         Call_send_message report_status_500;
         Sleep RETRY_TIME ]
  /\ last_error (state_of run) = None.
Proof. intros run. subst run. repeat split; vm_compute; reflexivity. Qed.

End Orchestration.

(** ** Startup *)

Lemma truthy_is_set v : truthy v = true <-> is_set v.
Proof.
  unfold truthy, is_set. destruct v as [text |].
  - destruct (String.eqb_spec text "") as [-> | Hne]; simpl; split.
    + discriminate.
    + intros (text' & [= <-] & Hne). congruence.
    + intros _. eauto.
    + reflexivity.
  - split; [discriminate | intros (text & Heq & _); discriminate].
Qed.

Lemma not_truthy_not_set v : truthy v = false <-> ~ is_set v.
Proof.
  rewrite <- truthy_is_set. destruct (truthy v); split; congruence.
Qed.

(** X1.  [check_tokens] returns a true value exactly when the three
    variables are set to non-empty strings; the value it then returns is
    the chat identifier, not [True]. *)
Theorem check_tokens_true_iff_all_set t :
  (truthy (check_tokens t) = true
   <-> is_set (PRACTICUM_TOKEN t) /\ is_set (TELEGRAM_TOKEN t)
       /\ is_set (TELEGRAM_CHAT_ID t))
  /\ (truthy (check_tokens t) = true -> check_tokens t = TELEGRAM_CHAT_ID t).
Proof.
  rewrite <- !truthy_is_set. unfold check_tokens, py_and.
  destruct (truthy (PRACTICUM_TOKEN t)) eqn:Hp; cbv iota; rewrite ?Hp; cbv iota;
    destruct (truthy (TELEGRAM_TOKEN t)) eqn:Ht; cbv iota; rewrite ?Ht, ?Hp;
    cbv iota; intuition congruence.
Qed.

Lemma check_tokens_true_iff_all_set_aux t :
  (truthy (check_tokens t) = true
   <-> is_set (PRACTICUM_TOKEN t) /\ is_set (TELEGRAM_TOKEN t)
       /\ is_set (TELEGRAM_CHAT_ID t))
  /\ (truthy (check_tokens t) = false -> log_missing_tokens (TOKENS t) <> []).
Proof.
  rewrite <- !truthy_is_set. unfold check_tokens, py_and, TOKENS, log_missing_tokens.
  destruct (truthy (PRACTICUM_TOKEN t)) eqn:Hp; cbv iota; rewrite ?Hp; cbv iota;
    destruct (truthy (TELEGRAM_TOKEN t)) eqn:Ht; cbv iota; rewrite ?Ht, ?Hp;
    cbv iota;
    destruct (truthy (TELEGRAM_CHAT_ID t)) eqn:Hc; simpl;
    intuition (try congruence; try discriminate).
Qed.

Lemma log_missing_tokens_In items ev :
  In ev (log_missing_tokens items)
  <-> exists token_name token_value,
        In (token_name, token_value) items
        /\ truthy token_value = false
        /\ ev = Log CRITICAL ("Отсутствует переменная окружения " ++ token_name).
Proof.
  induction items as [| [name value] rest IH]; simpl.
  - split; [contradiction | intros (n & v & [] & _)].
  - destruct (truthy value) eqn:Hv; simpl; rewrite IH; split.
    + intros (n & v & Hin & Hfalse & ->). exists n, v. auto.
    + intros (n & v & [[= <- <-] | Hin] & Hfalse & ->); [congruence |].
      exists n, v. auto.
    + intros [<- | (n & v & Hin & Hfalse & ->)].
      * exists name, value. auto.
      * exists n, v. auto.
    + intros (n & v & [[= <- <-] | Hin] & Hfalse & ->); [now left |].
      right. exists n, v. auto.
Qed.

Lemma log_missing_tokens_eq items :
  log_missing_tokens items
  = map (fun item => Log CRITICAL ("Отсутствует переменная окружения " ++ fst item))
      (filter (fun item => negb (truthy (snd item))) items).
Proof.
  induction items as [| [name value] rest IH]; [reflexivity |].
  cbn [log_missing_tokens filter snd]. destruct (truthy value); cbn [negb map fst];
    now rewrite IH.
Qed.

Section Startup.

Context {runtime : PyRuntime}.

(** X2.  When one of the three variables is unset or empty, [main] exits
    before it creates the bot or polls.  Its records are exactly one
    critical record for each such variable, in the order of [TOKENS], and
    nothing else; there is at least one.  When the three are set and the bot
    is created, it enters the loop with the cursor at the current time and
    no remembered error. *)
Theorem main_needs_all_tokens t new_bot now envs :
  (~ (is_set (PRACTICUM_TOKEN t) /\ is_set (TELEGRAM_TOKEN t)
      /\ is_set (TELEGRAM_CHAT_ID t)) ->
   exists records,
     main t new_bot now envs
     = SystemExit "Отсутствуют необходимые переменные окружения" records
     /\ records
        = map (fun item =>
                 Log CRITICAL ("Отсутствует переменная окружения " ++ fst item))
            (filter (fun item => negb (truthy (snd item))) (TOKENS t))
     /\ records <> []
     /\ forall ev,
          In ev records
          <-> exists token_name token_value,
                In (token_name, token_value) (TOKENS t)
                /\ ~ is_set token_value
                /\ ev = Log CRITICAL
                          ("Отсутствует переменная окружения " ++ token_name))
  /\ (is_set (PRACTICUM_TOKEN t) /\ is_set (TELEGRAM_TOKEN t)
      /\ is_set (TELEGRAM_CHAT_ID t) ->
      new_bot (TELEGRAM_TOKEN t) = BotCreated ->
      main t new_bot now envs
      = Running (main_loop envs (mk_machine 0 (JInt now) None))).
Proof.
  destruct (check_tokens_true_iff_all_set_aux t) as [Hiff Hnone].
  split.
  - intros Hunset.
    assert (Hfalse : truthy (check_tokens t) = false).
    { destruct (truthy (check_tokens t)); [| reflexivity].
      exfalso. apply Hunset, Hiff. reflexivity. }
    exists (log_missing_tokens (TOKENS t)). unfold main. rewrite Hfalse. simpl negb.
    split; [reflexivity |]. split; [apply log_missing_tokens_eq |]. split.
    + apply Hnone. exact Hfalse.
    + intros ev. rewrite log_missing_tokens_In.
      split; intros (n & v & Hin & Hv & ->); exists n, v;
        (split; [assumption |]); (split; [| reflexivity]);
        now apply not_truthy_not_set.
  - intros Hset Hbot. unfold main.
    replace (truthy (check_tokens t)) with true by (symmetry; now apply Hiff).
    simpl negb. rewrite Hbot. reflexivity.
Qed.

End Startup.

(** ** The stages, case by case *)

Section StageContracts.

Context {runtime : PyRuntime}.

(** X3.  [get_api_answer] returns a value exactly when the answer has
    status 200 and its body decodes to that value; it then leaves the state
    as it was and does nothing but the call. *)
Theorem get_api_answer_returns_iff env ts s v :
  (result_of (get_api_answer env ts s) = Ret v
   <-> requests_get env ts = GetReturns HTTPStatus_OK (JsonValue v))
  /\ (result_of (get_api_answer env ts s) = Ret v ->
      get_api_answer env ts s = (Ret v, s, [Call_get_api_answer ts])).
Proof.
  split; [split |].
  - apply get_api_answer_Ret.
  - intros Hget. now rewrite (get_api_answer_ok env ts s v Hget).
  - intros Hret. apply get_api_answer_ok. now apply (get_api_answer_Ret env ts s).
Qed.

(** X4.  An exception raised by [requests.get], or by [Response.json()] on
    an answer with status 200, leaves [get_api_answer] as a
    [RequestAPIError] when it is a [RequestException], even if it is also a
    JSON decode error (as the decode error of requests itself is); as a
    [JSONError] when it is a JSON decode error only; unchanged otherwise. *)
Theorem get_api_answer_routes_exceptions env ts s c text :
  requests_get env ts = GetRaises c text
  \/ requests_get env ts = GetReturns HTTPStatus_OK (JsonRaises c text) ->
  (issubclass c RequestException = true ->
   ending_of (result_of (get_api_answer env ts s))
   = Fails RequestAPIError ("Ошибка при запросе к основному API: " ++ text))
  /\ (issubclass c RequestException = false ->
      issubclass c JSONDecodeError = true ->
      ending_of (result_of (get_api_answer env ts s))
      = Fails JSONError ("Ошибка при декодировании JSON: " ++ text))
  /\ (issubclass c RequestException = false ->
      issubclass c JSONDecodeError = false ->
      ending_of (result_of (get_api_answer env ts s)) = Fails c text)
  /\ issubclass RequestsJSONDecodeError RequestException = true.
Proof.
  intros Hget.
  assert (Hrun : get_api_answer env ts s
                 = match reraised c text s with
                   | (r, s', t) => (r, s', Call_get_api_answer ts :: t)
                   end).
  { rewrite get_api_answer_eq. destruct Hget as [-> | ->]; reflexivity. }
  rewrite Hrun. unfold reraised.
  repeat split.
  - intros Hreq. rewrite Hreq. destruct c; try discriminate; reflexivity.
  - intros Hreq Hjson. rewrite Hreq, Hjson. destruct c; try discriminate; reflexivity.
  - intros Hreq Hjson. rewrite Hreq, Hjson. reflexivity.
Qed.

(** X5.  [send_message] returns, and logs its confirmation, exactly when
    the bot delivers the text it was given; a [TelegramError] of the bot
    leaves it as a [TelegramMessageError] carrying the text of the error,
    and any other exception leaves it unchanged.  Its trace records the call
    with that text, once. *)
Theorem send_message_confirms_iff_delivered b message s :
  sent_messages (trace_of (send_message b message s)) = [message]
  /\ (result_of (send_message b message s) = Ret tt <-> b message = SendOk)
  /\ (In (Log INFO "Сообщение успешно отправлено в телеграм")
         (trace_of (send_message b message s))
      <-> b message = SendOk)
  /\ (forall c text,
        b message = SendRaises c text ->
        ending_of (result_of (send_message b message s))
        = if issubclass c TelegramError
          then Fails TelegramMessageError ("Ошибка при отправке сообщения: " ++ text)
          else Fails c text).
Proof.
  rewrite send_message_eq.
  destruct (b message) as [| c text] eqn:Hb.
  - repeat split; try discriminate; intros; simpl; auto.
  - repeat split.
    + destruct (issubclass c TelegramError); reflexivity.
    + destruct (issubclass c TelegramError); discriminate.
    + discriminate.
    + destruct (issubclass c TelegramError); simpl; intros [H | []]; discriminate.
    + discriminate.
    + intros c' text' [= <- <-]. destruct c; reflexivity.
Qed.

(** X6.  [parse_status] returns a text exactly when the homework is a dict
    whose name is present and not null and whose status is a string with an
    entry in the table of verdicts; the text is the sentence built from the
    printed name and that verdict.  In every other case it raises. *)
Theorem parse_status_returns_iff homework s text :
  result_of (parse_status homework s) = Ret text
  <-> exists d name code verdict,
        homework = JDict d
        /\ dict_lookup d "homework_name" = Some name
        /\ name <> JNull
        /\ dict_lookup d "status" = Some (JStr code)
        /\ verdict_lookup HOMEWORK_VERDICTS code = Some verdict
        /\ text = status_sentence (py_str name) verdict.
Proof.
  unfold parse_status, not_in_HOMEWORK_VERDICTS, bind, emit, ret, raise_new,
    result_of, dict_get, status_sentence.
  split.
  - destruct homework as [| b | z | l | str | items | d]; try discriminate.
    destruct (dict_lookup d "homework_name") as [name |] eqn:Hname;
      [| discriminate].
    destruct (is_None name) eqn:Hnone; [discriminate |].
    destruct (dict_lookup d "status") as [status |] eqn:Hstatus; [| discriminate].
    destruct status as [| b | z | l | code | items | d']; try discriminate.
    cbn [py_str].
    destruct (verdict_lookup HOMEWORK_VERDICTS code) as [verdict |] eqn:Hverdict;
      [| discriminate].
    cbn [fst snd]. intros [= <-].
    exists d, name, code, verdict. repeat split; auto.
    now apply is_None_false.
  - intros (d & name & code & verdict & -> & Hname & Hnull & Hstatus & Hverdict & ->).
    rewrite Hname, Hstatus.
    apply is_None_false in Hnull. rewrite Hnull. cbn [py_str].
    rewrite Hverdict. reflexivity.
Qed.

End StageContracts.

(** ** Counting the events of a run *)

Lemma count_kind_app k t1 t2 :
  count_kind k (t1 ++ t2)%list = count_kind k t1 + count_kind k t2.
Proof.
  unfold count_kind. induction t1 as [| ev t1 IH]; simpl; [reflexivity |].
  destruct (is_kind k ev); simpl; now rewrite IH.
Qed.

Lemma count_kind_cons k ev t :
  count_kind k (ev :: t) = (if is_kind k ev then 1 else 0) + count_kind k t.
Proof. unfold count_kind. simpl. destruct (is_kind k ev); reflexivity. Qed.

Lemma parse_calls_app t1 t2 :
  parse_calls (t1 ++ t2)%list = (parse_calls t1 ++ parse_calls t2)%list.
Proof.
  induction t1 as [| ev t1 IH]; simpl; [reflexivity |].
  destruct ev; simpl; now rewrite IH.
Qed.

Lemma after_try_events_counts tail :
  forallb after_try_event tail = true ->
  count_kind K_get_api_answer tail = 0
  /\ count_kind K_check_response tail = 0
  /\ count_kind K_parse_status tail = 0
  /\ parse_calls tail = [].
Proof.
  induction tail as [| ev tail IH]; simpl; [auto |].
  intros H. apply andb_true_iff in H as [Hev Htail].
  destruct ev; try discriminate; exact (IH Htail).
Qed.

Section Quiet.

Variable k : event_kind.

Lemma quiet_ret {A} (a : A) : quiet k (ret a).
Proof. intro s. reflexivity. Qed.

Lemma quiet_emit ev : is_kind k ev = false -> quiet k (emit ev).
Proof. intros Hev s. unfold count_kind. simpl. now rewrite Hev. Qed.

Lemma quiet_raise_new {A} cls arg : quiet k (@raise_new A cls arg).
Proof. intro s. reflexivity. Qed.

Lemma quiet_set_current_timestamp v : quiet k (set_current_timestamp v).
Proof. intro s. reflexivity. Qed.

Lemma quiet_set_last_error e : quiet k (set_last_error e).
Proof. intro s. reflexivity. Qed.

Lemma quiet_get_last_error : quiet k get_last_error.
Proof. intro s. reflexivity. Qed.

Lemma quiet_bind {A B} (m : M A) (f : A -> M B) :
  quiet k m -> (forall a, quiet k (f a)) -> quiet k (bind m f).
Proof.
  intros Hm Hf s. specialize (Hm s). unfold bind, trace_of in *.
  destruct (m s) as [[[a | e] s1] t1]; simpl in *; [| exact Hm].
  specialize (Hf a s1). unfold trace_of in Hf.
  destruct (f a s1) as [[r2 s2] t2]; simpl in *.
  rewrite count_kind_app. lia.
Qed.

Lemma quiet_try_except_else {A B} (body : M A)
      (handlers : list (pyclass * (exn -> M B))) (orelse : A -> M B) :
  quiet k body ->
  (forall c h, In (c, h) handlers -> forall e, quiet k (h e)) ->
  (forall a, quiet k (orelse a)) ->
  quiet k (try_except_else body handlers orelse).
Proof.
  intros Hbody Hh Helse s. specialize (Hbody s).
  unfold try_except_else, trace_of in *.
  destruct (body s) as [[[a | e] s1] t1]; simpl in *.
  - specialize (Helse a s1). unfold trace_of in Helse.
    destruct (orelse a s1) as [[r2 s2] t2]; simpl in *.
    rewrite count_kind_app. lia.
  - destruct (select_handler handlers e) as [h |] eqn:Hsel; [| exact Hbody].
    destruct (select_handler_In _ _ _ Hsel) as [c Hin].
    specialize (Hh c h Hin e s1). unfold trace_of in Hh.
    destruct (h e s1) as [[r2 s2] t2]; simpl in *.
    rewrite count_kind_app. lia.
Qed.

End Quiet.

Ltac quiet_step :=
  match goal with
  | |- quiet _ (bind _ _) => apply quiet_bind; [| intro]
  | |- quiet _ (ret _) => apply quiet_ret
  | |- quiet _ (emit _) => apply quiet_emit; reflexivity
  | |- quiet _ (raise_new _ _) => apply quiet_raise_new
  | |- quiet _ (set_current_timestamp _) => apply quiet_set_current_timestamp
  | |- quiet _ (set_last_error _) => apply quiet_set_last_error
  | |- quiet _ get_last_error => apply quiet_get_last_error
  | |- quiet _ (try_except_else _ _ _) =>
      apply quiet_try_except_else; [| handlers_cases | intro]
  | |- quiet _ (match ?x with _ => _ end) => destruct x
  end.

Section IterationShape.

Context {runtime : PyRuntime}.

Lemma get_api_answer_trace env ts s :
  trace_of (get_api_answer env ts s) = [Call_get_api_answer ts].
Proof.
  rewrite get_api_answer_eq. unfold reraised, trace_of.
  destruct (requests_get env ts) as [c text | status_code body].
  - destruct (issubclass c RequestException); [reflexivity |].
    destruct (issubclass c JSONDecodeError); reflexivity.
  - destruct (Z.eqb status_code HTTPStatus_OK); [| reflexivity].
    destruct body as [v | c text]; [reflexivity |].
    destruct (issubclass c RequestException); [reflexivity |].
    destruct (issubclass c JSONDecodeError); reflexivity.
Qed.

(** After the request, the [try] block neither requests again nor sleeps. *)
Lemma after_fetch_quiet env response k :
  k = K_get_api_answer \/ k = K_sleep -> quiet k (after_fetch env response).
Proof.
  intros [-> | ->];
    unfold after_fetch, response_get_current_date, validate_and_notify,
      check_response, parse_status, not_in_HOMEWORK_VERDICTS, send_message,
      bot_send_message;
    repeat quiet_step.
Qed.

Lemma poll_eq env s :
  poll env s =
  match get_api_answer env (current_timestamp s) s with
  | (Ret response, s1, t1) =>
      match after_fetch env response s1 with
      | (r, s2, t2) => (r, s2, (t1 ++ t2)%list)
      end
  | (Raise e, s1, t1) => (Raise e, s1, t1)
  end.
Proof.
  unfold poll, bind at 1 2, get_current_timestamp.
  unfold after_fetch, validate_and_notify.
  destruct (get_api_answer env (current_timestamp s) s) as [[[response | e] s1] t1];
    [| reflexivity].
  match goal with
  | |- context [bind ?m ?f s1] => destruct (bind m f s1) as [[r s2] t2]
  end.
  reflexivity.
Qed.

(** What an iteration adds to the trace of its [try] block: records of the
    log and calls of [send_message], then the sleep. *)
Lemma iteration_trace env s :
  exists tail,
    trace_of (iteration env s)
    = (trace_of (poll env s) ++ tail ++ [Sleep RETRY_TIME])%list
    /\ forallb after_try_event tail = true
    /\ count_kind K_sleep tail = 0.
Proof.
  rewrite iteration_eq. unfold trace_of.
  destruct (poll env s) as [[[u | e] s1] t1]; simpl.
  - exists []. auto.
  - destruct (isinstance e NoMessageToTelegram); simpl.
    + exists [Log ERROR (failure_message e)]. auto.
    + rewrite except_Exception_eq.
      destruct (py_ne (last_error s1) e);
        [rewrite send_message_eq; destruct (bot env (failure_message e)) as [| c text];
         [| destruct (issubclass c TelegramError)] |];
        simpl; eexists; (split; [rewrite <- app_assoc; reflexivity |]); auto.
Qed.

Lemma iteration_shape env s :
  exists middle,
    trace_of (iteration env s)
    = (Call_get_api_answer (current_timestamp s) :: middle
       ++ [Sleep RETRY_TIME])%list
    /\ count_kind K_get_api_answer middle = 0
    /\ count_kind K_sleep middle = 0.
Proof.
  destruct (iteration_trace env s) as (tail & Htrace & Hkinds & Hsleep).
  destruct (after_try_events_counts tail Hkinds) as (Hget & _).
  rewrite Htrace, poll_eq.
  pose proof (get_api_answer_trace env (current_timestamp s) s) as Hfetch.
  unfold trace_of in *.
  destruct (get_api_answer env (current_timestamp s) s) as [[[response | e] s1] t1];
    simpl in Hfetch; subst t1.
  - pose proof (after_fetch_quiet env response K_get_api_answer (or_introl eq_refl) s1)
      as Hq1.
    pose proof (after_fetch_quiet env response K_sleep (or_intror eq_refl) s1) as Hq2.
    unfold trace_of in *.
    destruct (after_fetch env response s1) as [[r s2] t2]; simpl in *.
    exists (t2 ++ tail)%list. rewrite !count_kind_app, <- app_assoc.
    repeat split; lia.
  - exists tail. simpl. auto.
Qed.

(** X7.  Every iteration, however it ends, starts with one call of
    [get_api_answer] on the cursor it had, and ends with one sleep of
    [RETRY_TIME]; in between it neither requests again nor sleeps. *)
Theorem iteration_requests_once_and_sleeps_last env s :
  exists middle,
    trace_of (iteration env s)
    = (Call_get_api_answer (current_timestamp s) :: middle
       ++ [Sleep RETRY_TIME])%list
    /\ count_kind K_get_api_answer middle = 0
    /\ count_kind K_sleep middle = 0.
Proof. exact (iteration_shape env s). Qed.

Lemma check_response_accepts d items s :
  ~ absent_or_null d "current_date" ->
  dict_lookup d "homeworks" = Some (JList items) ->
  check_response (JDict d) s = (Ret items, s, [Call_check_response (JDict d)]).
Proof.
  intros Hdate Hhw. unfold check_response, bind, emit, ret.
  destruct (is_None (dict_get d "current_date")) eqn:Hnone.
  - exfalso. apply Hdate. now apply is_None_dict_get.
  - unfold dict_get. rewrite Hhw. reflexivity.
Qed.

Lemma check_response_no_cursor d s :
  absent_or_null d "current_date" ->
  check_response (JDict d) s
  = (Raise (mk_exn (next_id s) CurrentDateError
              "В ответе API отсутствует ключ current_date"),
     mk_machine (S (next_id s)) (current_timestamp s) (last_error s),
     [Call_check_response (JDict d)]).
Proof.
  intros Hdate. apply is_None_dict_get in Hdate.
  unfold check_response, bind, emit, raise_new. rewrite Hdate. reflexivity.
Qed.

Lemma parse_status_run homework s :
  exists r s', parse_status homework s = (r, s', [Call_parse_status homework]).
Proof.
  unfold parse_status, not_in_HOMEWORK_VERDICTS, bind, emit, ret, raise_new.
  destruct homework as [| b | z | l | str | items | d];
    try (do 2 eexists; reflexivity).
  destruct (is_None (dict_get d "homework_name"));
    try (do 2 eexists; reflexivity).
  destruct (dict_get d "status") as [| b | z | l | code | items | d'];
    try (do 2 eexists; reflexivity).
  cbn [py_str].
  destruct (verdict_lookup HOMEWORK_VERDICTS code); do 2 eexists; reflexivity.
Qed.

(** X8.  Of the homeworks of an accepted response only the first is given
    to [parse_status]; the others are never looked at, and an empty list
    gives no call at all. *)
Theorem only_first_homework_is_parsed env s d items :
  requests_get env (current_timestamp s)
  = GetReturns HTTPStatus_OK (JsonValue (JDict d)) ->
  ~ absent_or_null d "current_date" ->
  dict_lookup d "homeworks" = Some (JList items) ->
  parse_calls (trace_of (iteration env s)) = firstn 1 items.
Proof.
  intros Hget Hdate Hhw.
  destruct (iteration_trace env s) as (tail & Htrace & Hkinds & _).
  destruct (after_try_events_counts tail Hkinds) as (_ & _ & _ & Htail).
  rewrite Htrace, !parse_calls_app, Htail. simpl. rewrite app_nil_r.
  rewrite (poll_fetched_dict env s _ d Hget eq_refl), validate_and_notify_eq,
    (check_response_accepts d items _ Hdate Hhw).
  destruct items as [| first rest]; [reflexivity |].
  match goal with
  | |- context [parse_status first ?st] =>
      destruct (parse_status_run first st) as (r & s' & ->)
  end.
  destruct r as [message | e]; [| reflexivity].
  rewrite send_message_eq.
  destruct (bot env message) as [| c text];
    [| destruct (issubclass c TelegramError)]; reflexivity.
Qed.

(** X9.  When the fetched mapping has no [current_date], or a null one,
    the iteration stops at [check_response]: the homeworks of the answer are
    not parsed, nothing is sent to the chat, the error is logged only,
    [last_error] keeps its value, and the cursor has already been
    overwritten. *)
Theorem missing_cursor_drops_the_answer env s d :
  requests_get env (current_timestamp s)
  = GetReturns HTTPStatus_OK (JsonValue (JDict d)) ->
  absent_or_null d "current_date" ->
  iteration env s
  = (Ret tt,
     mk_machine (S (next_id s))
       (dict_get_default d "current_date" (JInt (time_time env))) (last_error s),
     [ Call_get_api_answer (current_timestamp s);
       Call_check_response (JDict d);
       Log ERROR "Сбой в работе программы: В ответе API отсутствует ключ current_date";
       Sleep RETRY_TIME ]).
Proof.
  intros Hget Hdate.
  rewrite iteration_eq, (poll_fetched_dict env s _ d Hget eq_refl),
    validate_and_notify_eq, (check_response_no_cursor d _ Hdate).
  reflexivity.
Qed.

End IterationShape.

(** ** The loop over many iterations *)

Section LoopBehaviour.

Context {runtime : PyRuntime}.

Lemma reachable_wf s : reachable s -> wf s.
Proof. intros (now & envs & ->). apply wf_main_loop, wf_start. Qed.

(** X10.  In a state that the loop reaches, an iteration lets an exception
    out, and so ends the loop, exactly when its [try] block raised an error
    to report and the bot refused the report.  No failure of the request, of
    the validation or of the formatting ends the loop by itself. *)
Theorem iteration_raises_iff_report_refused env s :
  reachable s ->
  ((exists e', result_of (iteration env s) = Raise e')
   <-> exists e c text,
         result_of (poll env s) = Raise e
         /\ isinstance e NoMessageToTelegram = false
         /\ bot env (failure_message e) = SendRaises c text).
Proof.
  intros Hreach. apply reachable_wf in Hreach.
  pose proof (poll_raises_new_object env s) as Hnew.
  rewrite iteration_eq. unfold result_of, state_of in *.
  destruct (poll env s) as [[[u | e] s1] t1]; simpl in *.
  - split; [intros (e' & He'); discriminate | intros (e & c & text & He & _); discriminate].
  - destruct (Hnew e Hreach eq_refl) as [Hne _].
    destruct (isinstance e NoMessageToTelegram) eqn:Hclass; simpl.
    + split; [intros (e' & He'); discriminate |].
      intros (e0 & c & text & [= <-] & Hfalse & _). congruence.
    + rewrite except_Exception_eq, Hne, send_message_eq.
      destruct (bot env (failure_message e)) as [| c text] eqn:Hbot.
      * split; [intros (e' & He'); discriminate |].
        intros (e0 & c & text & [= <-] & _ & Hrefused). congruence.
      * split; [intros _; exists e, c, text; auto |].
        intros _. destruct (issubclass c TelegramError); simpl; eauto.
Qed.

Lemma iteration_survives env s :
  wf s -> delivers env -> result_of (iteration env s) = Ret tt.
Proof.
  intros Hwf Hbot.
  pose proof (poll_raises_new_object env s) as Hnew.
  rewrite iteration_eq. unfold result_of, state_of in *.
  destruct (poll env s) as [[[[] | e] s1] t1]; simpl in *; [reflexivity |].
  destruct (Hnew e Hwf eq_refl) as [Hne _].
  destruct (isinstance e NoMessageToTelegram); [reflexivity |].
  rewrite except_Exception_eq, Hne, send_message_eq, Hbot. reflexivity.
Qed.

Lemma main_loop_survives envs :
  Forall delivers envs ->
  forall s, wf s ->
    result_of (main_loop envs s) = Ret tt
    /\ count_kind K_sleep (trace_of (main_loop envs s)) = length envs
    /\ count_kind K_get_api_answer (trace_of (main_loop envs s)) = length envs.
Proof.
  induction 1 as [| env rest Henv Hrest IH]; intros s Hwf; [auto |].
  cbn [main_loop length]. unfold bind.
  pose proof (iteration_survives env s Hwf Henv) as Hret.
  pose proof (wf_iteration env s Hwf) as Hwf1.
  destruct (iteration_shape env s) as (middle & Htrace & Hget & Hsleep).
  unfold result_of, state_of, trace_of in *.
  destruct (iteration env s) as [[r s1] t1]; cbn [fst snd] in *. subst r t1.
  destruct (IH s1 Hwf1) as (Hr & Hs & Hg).
  destruct (main_loop rest s1) as [[r2 s2] t2]; cbn [fst snd] in *.
  split; [assumption |].
  rewrite !count_kind_app, !count_kind_cons, !count_kind_app, Hs, Hg, Hget, Hsleep.
  split; reflexivity.
Qed.

(** X11.  As long as the bot delivers every message, the loop never stops:
    whatever the endpoint answers, every iteration of the run is carried
    out, each with one request and one sleep. *)
Theorem loop_runs_on_when_bot_delivers now envs :
  Forall delivers envs ->
  result_of (main_loop envs (start now)) = Ret tt
  /\ count_kind K_sleep (trace_of (main_loop envs (start now))) = length envs
  /\ count_kind K_get_api_answer (trace_of (main_loop envs (start now)))
     = length envs.
Proof. intros Hbot. apply (main_loop_survives envs Hbot), wf_start. Qed.

(** X12.  In a state that the loop reaches, every error of the [try] block
    that is not a [NoMessageToTelegram] is handed to [send_message], whatever
    [last_error] holds: the comparison with [last_error] never holds a
    report back. *)
Theorem reachable_errors_are_always_reported env s e :
  reachable s ->
  result_of (poll env s) = Raise e ->
  isinstance e NoMessageToTelegram = false ->
  sent_messages (trace_of (iteration env s))
  = (sent_messages (trace_of (poll env s)) ++ [failure_message e])%list.
Proof.
  intros Hreach. apply notifiable_error_always_sent. now apply reachable_wf.
Qed.

(** X13.  An iteration changes [last_error] only when its [try] block raised
    an error to report and the bot delivered the report; [last_error] is then
    that error.  It is never set back to [None]: neither a success nor an
    error that is only logged clears it. *)
Theorem last_error_changes_only_on_delivered_report env s :
  (last_error (state_of (iteration env s)) = last_error s
   \/ exists e,
        result_of (poll env s) = Raise e
        /\ isinstance e NoMessageToTelegram = false
        /\ bot env (failure_message e) = SendOk
        /\ last_error (state_of (iteration env s)) = Some e)
  /\ (last_error s <> None -> last_error (state_of (iteration env s)) <> None).
Proof.
  pose proof (poll_keeps_last_error env s) as Hkeep.
  rewrite iteration_eq. unfold result_of, state_of, same_last_error in *.
  destruct (poll env s) as [[[u | e] s1] t1]; simpl in *.
  - rewrite Hkeep. split; [now left | auto].
  - destruct (isinstance e NoMessageToTelegram) eqn:Hclass; simpl.
    + rewrite Hkeep. split; [now left | auto].
    + rewrite except_Exception_eq, send_message_eq.
      destruct (py_ne (last_error s1) e);
        [destruct (bot env (failure_message e)) as [| c text] eqn:Hbot;
         [| destruct (issubclass c TelegramError)] |];
        simpl; rewrite ?Hkeep;
        try (split; [now left | auto]).
      split; [right; exists e; auto | discriminate].
Qed.

(** X14.  An iteration moves the cursor only when the request was
    answered with status 200 and a mapping: a failed request, a body that
    does not decode and a value that is not a mapping all leave it alone. *)
Theorem cursor_moves_only_on_fetched_mapping env s :
  current_timestamp (state_of (iteration env s)) <> current_timestamp s ->
  exists d,
    requests_get env (current_timestamp s)
    = GetReturns HTTPStatus_OK (JsonValue (JDict d)).
Proof.
  intros Hmoved.
  destruct (cursor_kept_without_mapping env s) as [Hfail Hother].
  destruct (result_of (get_api_answer env (current_timestamp s) s))
    as [v | e] eqn:Hres.
  - apply get_api_answer_Ret in Hres.
    destruct v as [| b | z | l | str | items | d];
      try (exfalso; apply Hmoved; now apply (Hother _ Hres)).
    now exists d.
  - exfalso. apply Hmoved. now apply (Hfail e).
Qed.

Lemma parse_status_Ret homework s text :
  result_of (parse_status homework s) = Ret text ->
  parse_status homework s = (Ret text, s, [Call_parse_status homework]).
Proof.
  unfold parse_status, not_in_HOMEWORK_VERDICTS, bind, emit, ret, raise_new, result_of.
  destruct homework as [| b | z | l | str | items | d]; try discriminate.
  destruct (is_None (dict_get d "homework_name")); try discriminate.
  destruct (dict_get d "status") as [| b | z | l | code | items | d'];
    try discriminate.
  cbn [py_str].
  destruct (verdict_lookup HOMEWORK_VERDICTS code); try discriminate.
  cbn [fst snd]. intros [= <-]. reflexivity.
Qed.

(** X15.  When the text of a status cannot be delivered because the bot
    raises a [TelegramError], the iteration only logs the failure: nothing
    else is sent, [last_error] keeps its value, and the cursor has already
    moved to the [current_date] of the answer, so the status is not sent
    again later. *)
Theorem undelivered_status_is_only_logged env s d date first rest text c reason :
  requests_get env (current_timestamp s)
  = GetReturns HTTPStatus_OK (JsonValue (JDict d)) ->
  dict_lookup d "current_date" = Some date ->
  date <> JNull ->
  dict_lookup d "homeworks" = Some (JList (first :: rest)) ->
  result_of (parse_status first (mk_machine (next_id s) date (last_error s)))
  = Ret text ->
  bot env text = SendRaises c reason ->
  issubclass c TelegramError = true ->
  iteration env s
  = (Ret tt,
     mk_machine (S (S (next_id s))) date (last_error s),
     [ Call_get_api_answer (current_timestamp s);
       Call_check_response (JDict d);
       Call_parse_status first;
       Call_send_message text;
       Log ERROR ("Сбой в работе программы: Ошибка при отправке сообщения: " ++ reason);
       Sleep RETRY_TIME ]).
Proof.
  intros Hget Hdate Hnull Hhw Hparse Hbot Hclass.
  assert (Hpresent : ~ absent_or_null d "current_date").
  { intros [H | H]; rewrite Hdate in H; [discriminate | congruence]. }
  rewrite iteration_eq, (poll_fetched_dict env s _ d Hget eq_refl),
    validate_and_notify_eq, (check_response_accepts d _ _ Hpresent Hhw).
  unfold dict_get_default. rewrite Hdate.
  rewrite (parse_status_Ret _ _ _ Hparse), send_message_eq, Hbot, Hclass.
  destruct c; try discriminate. reflexivity.
Qed.

End LoopBehaviour.

(** ** The theorems at concrete inputs *)

#[local] Existing Instance sample_runtime.



Lemma end_to_end_scenarios_witness :
  sent_messages
    (trace_of (poll (env_answer response_hw1_approved bot_up) (start 5)))
  = [hw1_approved_text].
Proof.
  apply (end_to_end_scenarios
           (env_answer response_hw1_approved bot_up)
           (env_answer response_no_homeworks bot_up) (start 5)); reflexivity.
Defined.

(** C5, as stated, fails.  A record with a null name and the status
    approved has its name field and a status of the fixed set, and the code
    raises the missing-name [KeyError] where the claim has it return the
    sentence; a record whose status is a list is outside the fixed set, and
    the code raises a [TypeError] where the claim has the unknown-status
    error. *)
Lemma parse_status_null_name_or_list_status :
  (ending_of (result_of (parse_status
                (JDict [("homework_name", JNull); ("status", JStr "approved")])
                (start 0)))
   = Fails KeyError "В ответе API отсутствует ключ homework_name"
   /\ ~ parse_status_by_absence
         [("homework_name", JNull); ("status", JStr "approved")]
         (ending_of (result_of (parse_status
            (JDict [("homework_name", JNull); ("status", JStr "approved")])
            (start 0)))))
  /\ (ending_of (result_of (parse_status
                   (JDict [("homework_name", JStr "hw1"); ("status", JList [])])
                   (start 0)))
      = Fails TypeError "unhashable type: 'list'"
      /\ ~ parse_status_by_absence
            [("homework_name", JStr "hw1"); ("status", JList [])]
            (ending_of (result_of (parse_status
               (JDict [("homework_name", JStr "hw1"); ("status", JList [])])
               (start 0))))).
Proof.
  split; (split; [reflexivity |]); intros H; inversion H; subst;
    simpl in *; try discriminate; congruence.
Qed.

Lemma parse_status_decides_by_value_witness :
  ending_of (result_of (parse_status
               (JDict [("homework_name", JStr "hw1"); ("status", JInt 7)])
               (start 0)))
  = Fails KeyError "Статус 7 не найден".
Proof.
  apply (proj1 (proj2 (parse_status_decides_by_value
                         [("homework_name", JStr "hw1"); ("status", JInt 7)]
                         (start 0)))
           (JInt 7)).
  - intros [H | H]; simpl in H; discriminate.
  - reflexivity.
  - reflexivity.
  - discriminate.
  - discriminate.
  - discriminate.
Defined.

Lemma non_notifiable_error_only_logged_witness :
  last_error
    (state_of (iteration (env_answer response_without_cursor bot_up) (start 5)))
  = None.
Proof.
  apply (non_notifiable_error_only_logged
           (env_answer response_without_cursor bot_up) (start 5)
           (mk_exn 0 CurrentDateError "В ответе API отсутствует ключ current_date"));
    reflexivity.
Defined.

(** C8, as stated, fails: the answer 500 and a refused connection end in
    exceptions of one class. *)
Lemma non_ok_status_classified_as_request_failure :
  ending_of (result_of (get_api_answer env_status_500 (JInt 0) (start 0)))
  = Fails RequestAPIError (endpoint_unavailable 500)
  /\ ending_of (result_of (get_api_answer env_connection_error (JInt 0) (start 0)))
     = Fails RequestAPIError "Ошибка при запросе к основному API: Connection refused"
  /\ ~ classified_distinctly
        (result_of (get_api_answer env_status_500 (JInt 0) (start 0)))
        (result_of (get_api_answer env_connection_error (JInt 0) (start 0))).
Proof.
  split; [reflexivity |]. split; [reflexivity |].
  intros Hdistinct. apply Hdistinct. reflexivity.
Qed.

Lemma non_ok_status_raises_RequestAPIError_witness :
  exists e,
    result_of (get_api_answer env_status_500 (JInt 0) (start 0)) = Raise e
    /\ exn_cls e = RequestAPIError
    /\ exn_arg e = endpoint_unavailable 500.
Proof.
  destruct (non_ok_status_raises_RequestAPIError
              env_status_500 (JInt 0) (start 0) 500 (JsonValue JNull))
    as (e & Hraise & Hclass & Harg & _).
  - reflexivity.
  - unfold HTTPStatus_OK. lia.
  - exists e. repeat split; assumption.
Defined.

Lemma non_mapping_response_fails_before_validation_witness :
  sent_messages (trace_of (iteration (env_answer (JList []) bot_up) (start 5)))
  = ["Сбой в работе программы: 'list' object has no attribute 'get'"].
Proof.
  apply (non_mapping_response_fails_before_validation
           (env_answer (JList []) bot_up) (start 5) (JList [])); reflexivity.
Defined.

Lemma get_api_answer_routes_exceptions_witness :
  ending_of (result_of (get_api_answer env_connection_error (JInt 0) (start 0)))
  = Fails RequestAPIError "Ошибка при запросе к основному API: Connection refused".
Proof.
  apply (get_api_answer_routes_exceptions env_connection_error (JInt 0) (start 0)
           RequestException "Connection refused").
  - left. reflexivity.
  - reflexivity.
Defined.

Lemma only_first_homework_is_parsed_witness :
  parse_calls
    (trace_of
       (iteration
          (env_answer
             (JDict [ ("homeworks",
                       JList [ JDict homework_hw1_approved;
                               JDict [ ("homework_name", JStr "hw2");
                                       ("status", JStr "rejected") ] ]);
                      ("current_date", JInt 1000) ])
             bot_up)
          (start 5)))
  = [JDict homework_hw1_approved].
Proof.
  apply (only_first_homework_is_parsed
           (env_answer
              (JDict [ ("homeworks",
                        JList [ JDict homework_hw1_approved;
                                JDict [ ("homework_name", JStr "hw2");
                                        ("status", JStr "rejected") ] ]);
                       ("current_date", JInt 1000) ])
              bot_up)
           (start 5)
           [ ("homeworks",
              JList [ JDict homework_hw1_approved;
                      JDict [ ("homework_name", JStr "hw2");
                              ("status", JStr "rejected") ] ]);
             ("current_date", JInt 1000) ]
           [ JDict homework_hw1_approved;
             JDict [ ("homework_name", JStr "hw2"); ("status", JStr "rejected") ] ]).
  - reflexivity.
  - intros [H | H]; simpl in H; discriminate.
  - reflexivity.
Defined.

Lemma missing_cursor_drops_the_answer_witness :
  result_of (iteration (env_answer response_without_cursor bot_up) (start 5)) = Ret tt.
Proof.
  rewrite (missing_cursor_drops_the_answer
             (env_answer response_without_cursor bot_up) (start 5)
             [("homeworks", JList [])]).
  - reflexivity.
  - reflexivity.
  - left. reflexivity.
Defined.

Lemma iteration_raises_iff_report_refused_witness :
  exists e', result_of (iteration env_status_500_bot_down (start 5)) = Raise e'.
Proof.
  apply (iteration_raises_iff_report_refused env_status_500_bot_down (start 5)).
  - exists 5%Z, []. reflexivity.
  - exists (mk_exn 1 RequestAPIError (endpoint_unavailable 500)),
      TelegramError, "Timed out".
    repeat split; reflexivity.
Defined.

Lemma loop_runs_on_when_bot_delivers_witness :
  result_of (main_loop [env_status_500; env_answer response_hw1_approved bot_up]
               (start 5))
  = Ret tt.
Proof.
  apply (loop_runs_on_when_bot_delivers 5
           [env_status_500; env_answer response_hw1_approved bot_up]).
  repeat constructor.
Defined.

Lemma reachable_errors_are_always_reported_witness :
  last_error (state_of (main_loop [env_status_500] (start 5)))
  = Some (mk_exn 1 RequestAPIError (endpoint_unavailable 500))
  /\ sent_messages
       (trace_of (iteration env_status_500
                    (state_of (main_loop [env_status_500] (start 5)))))
     = [report_status_500].
Proof.
  split; [reflexivity |].
  apply (reachable_errors_are_always_reported env_status_500
           (state_of (main_loop [env_status_500] (start 5)))
           (mk_exn 3 RequestAPIError (endpoint_unavailable 500))).
  - exists 5%Z, [env_status_500]. reflexivity.
  - reflexivity.
  - reflexivity.
Defined.

Lemma cursor_moves_only_on_fetched_mapping_witness :
  exists d,
    requests_get (env_answer response_without_cursor bot_up)
      (current_timestamp (start 5))
    = GetReturns HTTPStatus_OK (JsonValue (JDict d)).
Proof.
  apply (cursor_moves_only_on_fetched_mapping
           (env_answer response_without_cursor bot_up) (start 5)).
  vm_compute. discriminate.
Defined.

Lemma undelivered_status_is_only_logged_witness :
  result_of (iteration (env_answer response_hw1_approved bot_down) (start 5)) = Ret tt
  /\ last_error (state_of (iteration (env_answer response_hw1_approved bot_down)
                             (start 5))) = None.
Proof.
  rewrite (undelivered_status_is_only_logged
             (env_answer response_hw1_approved bot_down) (start 5)
             [ ("homeworks", JList [JDict homework_hw1_approved]);
               ("current_date", JInt 1000) ]
             (JInt 1000) (JDict homework_hw1_approved) [] hw1_approved_text
             TelegramError "Timed out").
  - split; reflexivity.
  - reflexivity.
  - reflexivity.
  - discriminate.
  - reflexivity.
  - reflexivity.
  - reflexivity.
  - reflexivity.
Defined.

Lemma check_response_twice_keeps_store_witness :
  hresult (check_response_at (PRef 2) store_hw1_approved (start 0)) = Ret (PRef 1)
  /\ hstore (check_response_at (PRef 2) store_hw1_approved (start 0))
     = store_hw1_approved
  /\ reify 3 store_hw1_approved (PRef 2) = Some response_hw1_approved.
Proof.
  split; [reflexivity |]. split; [| reflexivity].
  apply (check_response_twice_keeps_store (PRef 2) store_hw1_approved (start 0)
           (PRef 1)).
  reflexivity.
Defined.
